(** * Sensor sketches of the Sensebender repository: sampling and report policy

    The repository holds three Arduino sketches built on the MySensors
    library:

    - the Sensebender Micro alarm unit (temperature, humidity, door, motion
      and battery), embedded in [Module Sensebender];
    - the door/motion sketch that keeps [door_prev] and [motion_prev],
      embedded in [Module MotionSensor];
    - [ProMini3v.ino], the same sketch with the compile-time switch
      [SEND_ONLY_CHANGES], embedded in [Module ProMini3v].

    The radio, the sleep call and the sensor drivers belong to external
    libraries.  A wake cycle is therefore a function from the values read
    from the hardware in that cycle and the global variables before it to
    the global variables after it and the list of messages handed to
    [send], in program order. *)

From Stdlib Require Import ZArith List Bool Lia String.
From Stdlib Require Import Floats.SpecFloat.
Import ListNotations.
Local Open Scope Z_scope.

(** ** Arithmetic of the target (ATmega328, avr-gcc)

    [int] is 16 bits wide, [long] 32 bits, and both [float] and [double]
    are IEEE 754 binary32.  Floating point is the executable
    specification of the standard library instantiated at binary32.
    Integer results are reduced to their width by wrap-around, which is
    what the compiler produces for the counters of the sketch. *)
Module Avr.

Definition wrap_int (z : Z) : Z := (z + 32768) mod 65536 - 32768.
Definition wrap_long (z : Z) : Z := (z + 2147483648) mod 4294967296 - 2147483648.
Definition wrap_uint8 (z : Z) : Z := z mod 256.

Definition float := spec_float.
Definition prec : Z := 24.
Definition emax : Z := 128.

Definition fadd : float -> float -> float := SFadd prec emax.
Definition fsub : float -> float -> float := SFsub prec emax.
Definition fdiv : float -> float -> float := SFdiv prec emax.
Definition fneg : float -> float := SFopp.
(** [a > b] on floats: false as soon as one side is NaN. *)
Definition fgt (a b : float) : bool := SFltb b a.
Definition NAN : float := S754_nan.

(** Conversion of an integer to [float], rounding to nearest even. *)
Definition of_Z (z : Z) : float := binary_normalize prec emax z 0 false.

(** Conversion of a [float] to an integer type: the fraction is dropped. *)
Definition to_Z (f : float) : Z :=
  match f with
  | S754_finite s m e =>
      let mag := match e with
                 | Zneg p => Z.shiftr (Zpos m) (Zpos p)
                 | _ => Z.shiftl (Zpos m) e
                 end in
      if s then - mag else mag
  | _ => 0
  end.

Definition isnan (f : float) : bool :=
  match f with S754_nan => true | _ => false end.

(** Arduino.h: [#define abs(x) ((x)>0?(x):-(x))]. *)
Definition abs (x : float) : float :=
  if fgt x (of_Z 0) then x else fneg x.

(** The literals of the sketch. *)
Definition f0_5 : float := Eval vm_compute in fdiv (of_Z 1) (of_Z 2).
Definition f100 : float := Eval vm_compute in of_Z 100.
Definition f1000 : float := Eval vm_compute in of_Z 1000.
Definition f14 : float := Eval vm_compute in of_Z 14.

End Avr.

(** ** The running average of the humidity samples *)
Module RunningAverage.
Import Avr.

(** Modelled from the spec: the class RunningAverage comes from a library
    that is not part of the sources.  It is "a fixed-size ring of recent
    raw samples" whose "fixed-window mean" smooths the readings before
    the threshold comparison.  The window keeps the most recent samples,
    newest first, at most [size] of them; the mean of an empty window is
    NaN. *)
Record t := mk { size : nat; window : list float }.

Definition create (n : nat) : t := mk n [].
Definition clear (r : t) : t := mk (size r) [].
Definition addValue (v : float) (r : t) : t :=
  mk (size r) (firstn (size r) (v :: window r)).
Definition getAverage (r : t) : float :=
  match window r with
  | [] => NAN
  | w => fdiv (fold_right fadd (of_Z 0) w) (of_Z (Z.of_nat (List.length w)))
  end.

End RunningAverage.

(** ** Sketch code as state-passing computations

    A computation reads and writes the global variables of its sketch and
    appends to the list of messages handed to the radio. *)
Module Sketch.

Section Computation.
Context {St Msg : Type}.

Definition M (A : Type) : Type := St -> A * St * list Msg.

Definition ret {A} (a : A) : M A := fun s => (a, s, []).
Definition bind {A B} (m : M A) (f : A -> M B) : M B :=
  fun s =>
    let '(a, s1, o1) := m s in
    let '(b, s2, o2) := f a s1 in
    (b, s2, o1 ++ o2).
Definition gets {A} (f : St -> A) : M A := fun s => (f s, s, []).
Definition modify (f : St -> St) : M unit := fun s => (tt, f s, []).
Definition send (m : Msg) : M unit := fun s => (tt, s, [m]).
(** [if (c) body] with no else branch. *)
Definition when (c : bool) (body : M unit) : M unit :=
  if c then body else ret tt.

Definition state_after {A} (r : A * St * list Msg) : St := snd (fst r).
Definition sent {A} (r : A * St * list Msg) : list Msg := snd r.
End Computation.

Declare Scope sketch_scope.
Delimit Scope sketch_scope with sketch.
Notation "x <- m ;; k" := (bind m (fun x => k))
  (at level 61, m at next level, right associativity) : sketch_scope.
Notation "m ;; k" := (bind m (fun _ => k))
  (at level 61, right associativity) : sketch_scope.

End Sketch.

(** ** The Sensebender Micro alarm unit *)
Module Sensebender.
Import Avr Sketch.
Local Open Scope sketch_scope.

Definition AVERAGES : nat := 2.
Definition FORCE_TRANSMIT_INTERVAL : Z := 30.
Definition HUMI_TRANSMIT_THRESHOLD : float := f0_5.
Definition TEMP_TRANSMIT_THRESHOLD : float := f0_5.

(** The measurement returned by [getHumidityAndTemperature].  The type is
    declared by the SI7021 driver, outside the sources: two [int] fields
    and an [unsigned int] field. *)
Record si7021_env := mk_env {
  celsiusHundredths : Z;
  fahrenheitHundredths : Z;
  humidityPercent : Z
}.

(** What the hardware returns in one wake cycle: the sensor measurement,
    the result of [readVcc()] and the levels of the two input pins
    ([true] is HIGH). *)
Record readings := mk_readings {
  data : si7021_env;
  vcc : Z;
  door_pin : bool;
  motion_pin : bool
}.

Inductive message :=
| MsgTemp (temperature : float)      (* send(msgTemp.set(temperature,1)) *)
| MsgHum (humidity : Z)              (* send(msgHum.set(humidity)) *)
| MsgDoor (v : Z)                    (* send(msgDoor.set(door_val ? 1 : 0)) *)
| MsgMotion (v : Z)                  (* send(msgMotion.set(motion ? 1 : 0)) *)
| MsgBatt (send_voltage : float)     (* send(msgBatt.set(send_voltage,3)) *)
| BatteryLevel (percent : Z).        (* sendBatteryLevel(percent) *)

(** The global variables of the sketch. *)
Record state := mk_state {
  measureCount : Z;
  sendBattery : Z;
  isMetric : bool;
  transmission_occured : bool;
  lastTemperature : float;
  lastHumidity : Z;
  lastBattery : Z;
  old_door_val : bool;
  old_motion_val : bool;
  raHum : RunningAverage.t
}.

Definition set_measureCount (v : Z) (s : state) : state :=
  mk_state v (sendBattery s) (isMetric s) (transmission_occured s)
    (lastTemperature s) (lastHumidity s) (lastBattery s)
    (old_door_val s) (old_motion_val s) (raHum s).
Definition set_sendBattery (v : Z) (s : state) : state :=
  mk_state (measureCount s) v (isMetric s) (transmission_occured s)
    (lastTemperature s) (lastHumidity s) (lastBattery s)
    (old_door_val s) (old_motion_val s) (raHum s).
Definition set_isMetric (v : bool) (s : state) : state :=
  mk_state (measureCount s) (sendBattery s) v (transmission_occured s)
    (lastTemperature s) (lastHumidity s) (lastBattery s)
    (old_door_val s) (old_motion_val s) (raHum s).
Definition set_transmission_occured (v : bool) (s : state) : state :=
  mk_state (measureCount s) (sendBattery s) (isMetric s) v
    (lastTemperature s) (lastHumidity s) (lastBattery s)
    (old_door_val s) (old_motion_val s) (raHum s).
Definition set_lastTemperature (v : float) (s : state) : state :=
  mk_state (measureCount s) (sendBattery s) (isMetric s) (transmission_occured s)
    v (lastHumidity s) (lastBattery s)
    (old_door_val s) (old_motion_val s) (raHum s).
Definition set_lastHumidity (v : Z) (s : state) : state :=
  mk_state (measureCount s) (sendBattery s) (isMetric s) (transmission_occured s)
    (lastTemperature s) v (lastBattery s)
    (old_door_val s) (old_motion_val s) (raHum s).
Definition set_lastBattery (v : Z) (s : state) : state :=
  mk_state (measureCount s) (sendBattery s) (isMetric s) (transmission_occured s)
    (lastTemperature s) (lastHumidity s) v
    (old_door_val s) (old_motion_val s) (raHum s).
Definition set_old_door_val (v : bool) (s : state) : state :=
  mk_state (measureCount s) (sendBattery s) (isMetric s) (transmission_occured s)
    (lastTemperature s) (lastHumidity s) (lastBattery s)
    v (old_motion_val s) (raHum s).
Definition set_old_motion_val (v : bool) (s : state) : state :=
  mk_state (measureCount s) (sendBattery s) (isMetric s) (transmission_occured s)
    (lastTemperature s) (lastHumidity s) (lastBattery s)
    (old_door_val s) v (raHum s).
Definition set_raHum (v : RunningAverage.t) (s : state) : state :=
  mk_state (measureCount s) (sendBattery s) (isMetric s) (transmission_occured s)
    (lastTemperature s) (lastHumidity s) (lastBattery s)
    (old_door_val s) (old_motion_val s) v.

(** The initialisers of the global variables. *)
Definition init : state := {|
  measureCount := 0;
  sendBattery := 0;
  isMetric := true;
  transmission_occured := false;
  lastTemperature := of_Z (-100);
  lastHumidity := -100;
  lastBattery := -100;
  old_door_val := false;
  old_motion_val := false;
  raHum := RunningAverage.create AVERAGES
|}.

(** [sendBattLevel(force)]; [vcc_read] is what [readVcc()] returns. *)
Definition sendBattLevel (force : bool) (vcc_read : Z) : M unit :=
  when force (modify (set_lastBattery (-1))) ;;
  let vcc := vcc_read in
  last <- gets lastBattery ;;
  when (negb (vcc =? last))
    (modify (set_lastBattery vcc) ;;
     let send_voltage := fdiv (of_Z vcc) f1000 in
     send (MsgBatt send_voltage) ;;
     let vcc := wrap_long (vcc - 1900) in
     let percent := wrap_long (to_Z (fdiv (of_Z vcc) f14)) in
     send (BatteryLevel (wrap_uint8 percent)) ;;
     modify (set_transmission_occured true)).

(** [(isMetric ? data.celsiusHundredths : data.fahrenheitHundredths) / 100.0] *)
Definition reading_temperature (metric : bool) (d : si7021_env) : float :=
  fdiv (of_Z (if metric then celsiusHundredths d else fahrenheitHundredths d)) f100.

(** The value of [tx] when the [if (tx)] of
    [sendTempHumidityMeasurements] is reached. *)
Definition tx_decision (force : bool) (diffTemp diffHum : float) : bool :=
  let tx := force in
  let tx := if isnan diffHum then true else tx in
  let tx := if fgt diffTemp TEMP_TRANSMIT_THRESHOLD then true else tx in
  let tx := if fgt diffHum HUMI_TRANSMIT_THRESHOLD then true else tx in
  tx.

(** [sendTempHumidityMeasurements(force)]; [d] is the measurement read
    from the sensor and [vcc_read] what [readVcc()] would return. *)
Definition sendTempHumidityMeasurements
    (force : bool) (d : si7021_env) (vcc_read : Z) : M unit :=
  modify (fun s => set_raHum
            (RunningAverage.addValue (of_Z (humidityPercent d)) (raHum s)) s) ;;
  metric <- gets isMetric ;;
  lastT <- gets lastTemperature ;;
  lastH <- gets lastHumidity ;;
  average <- gets (fun s => RunningAverage.getAverage (raHum s)) ;;
  let diffTemp := abs (fsub lastT (reading_temperature metric d)) in
  let diffHum := abs (fsub (of_Z lastH) average) in
  when (tx_decision force diffTemp diffHum)
    (modify (set_measureCount 0) ;;
     let temperature := reading_temperature metric d in
     let humidity := wrap_int (humidityPercent d) in
     send (MsgTemp temperature) ;;
     send (MsgHum humidity) ;;
     modify (set_lastTemperature temperature) ;;
     modify (set_lastHumidity humidity) ;;
     modify (set_transmission_occured true) ;;
     sb <- gets sendBattery ;;
     when (sb >? 60)
       (sendBattLevel true vcc_read ;;
        modify (set_sendBattery 0))).

(** One pass through [loop()], up to the call of [sleep]. *)
Definition loop (r : readings) : M unit :=
  modify (fun s => set_measureCount (wrap_int (measureCount s + 1)) s) ;;
  modify (fun s => set_sendBattery (wrap_int (sendBattery s + 1)) s) ;;
  modify (set_transmission_occured false) ;;
  mc <- gets measureCount ;;
  let forceTransmit := mc >? FORCE_TRANSMIT_INTERVAL in
  when forceTransmit (modify (set_measureCount 0)) ;;
  sendTempHumidityMeasurements forceTransmit (data r) (vcc r) ;;
  let door_val := door_pin r in
  old_door <- gets old_door_val ;;
  when (negb (Bool.eqb door_val old_door))
    (send (MsgDoor (if door_val then 1 else 0)) ;;
     modify (set_old_door_val door_val)) ;;
  let motion := motion_pin r in
  old_motion <- gets old_motion_val ;;
  when (negb (Bool.eqb motion old_motion))
    (send (MsgMotion (if motion then 1 else 0)) ;;
     modify (set_old_motion_val motion)).

(** [setup()] when the test pin reads HIGH, so that [testMode] is not
    entered: [metric] is [getConfig().isMetric]. *)
Definition setup (metric : bool) (d : si7021_env) (vcc_read : Z) : M unit :=
  modify (set_isMetric metric) ;;
  modify (fun s => set_raHum (RunningAverage.clear (raHum s)) s) ;;
  sendTempHumidityMeasurements false d vcc_read ;;
  sendBattLevel false vcc_read.

(** The values of the locals [diffTemp] and [diffHum] of
    [sendTempHumidityMeasurements] when it is called in state [s] and the
    sensor returns [d]: the new sample enters the running average before
    the differences are taken. *)
Definition diffTemp (d : si7021_env) (s : state) : float :=
  abs (fsub (lastTemperature s) (reading_temperature (isMetric s) d)).
Definition diffHum (d : si7021_env) (s : state) : float :=
  let ra := RunningAverage.addValue (of_Z (humidityPercent d)) (raHum s) in
  abs (fsub (of_Z (lastHumidity s)) (RunningAverage.getAverage ra)).

(** The value of [tx] in that call. *)
Definition transmits (force : bool) (d : si7021_env) (s : state) : bool :=
  tx_decision force (diffTemp d s) (diffHum d s).

(** The value of [forceTransmit] in a pass through [loop()] begun in
    state [s]. *)
Definition forced (s : state) : bool :=
  wrap_int (measureCount s + 1) >? FORCE_TRANSMIT_INTERVAL.

(** The payloads sent on each channel, in order. *)
Definition temperature_reports (out : list message) : list float :=
  flat_map (fun m => match m with MsgTemp t => [t] | _ => [] end) out.
Definition humidity_reports (out : list message) : list Z :=
  flat_map (fun m => match m with MsgHum h => [h] | _ => [] end) out.
Definition door_reports (out : list message) : list Z :=
  flat_map (fun m => match m with MsgDoor v => [v] | _ => [] end) out.
Definition motion_reports (out : list message) : list Z :=
  flat_map (fun m => match m with MsgMotion v => [v] | _ => [] end) out.
Definition battery_reports (out : list message) : list Z :=
  flat_map (fun m => match m with BatteryLevel v => [v] | _ => [] end) out.

(** The state in which the body of [if (tx)] leaves the variables it
    assigns, before the battery is looked at. *)
Definition after_tx (d : si7021_env) (s : state) : state :=
  set_transmission_occured true
    (set_lastHumidity (wrap_int (humidityPercent d))
       (set_lastTemperature (reading_temperature (isMetric s) d)
          (set_measureCount 0
             (set_raHum (RunningAverage.addValue (of_Z (humidityPercent d)) (raHum s)) s)))).

(** The state in which [loop()] calls [sendTempHumidityMeasurements]:
    both counters incremented, [transmission_occured] cleared and
    [measureCount] back at 0 when the interval is exceeded. *)
Definition begin_cycle (s : state) : state :=
  let s1 := set_transmission_occured false
              (set_sendBattery (wrap_int (sendBattery s + 1))
                 (set_measureCount (wrap_int (measureCount s + 1)) s)) in
  if forced s then set_measureCount 0 s1 else s1.

(** The value of [tx] in a pass through [loop()] begun in state [s]. *)
Definition cycle_transmits (r : readings) (s : state) : bool :=
  transmits (forced s) (data r) (begin_cycle s).

(** The state in which [setup()] calls [sendTempHumidityMeasurements]
    for the first time: the initial values of the globals, [isMetric] as
    configured and the running average cleared. *)
Definition before_first_measurement (metric : bool) (s : state) : state :=
  set_raHum (RunningAverage.clear (raHum s)) (set_isMetric metric s).

(** A run of wake cycles: the state after the last one and, for each
    cycle in order, the messages it sent. *)
Fixpoint run (rs : list readings) (s : state) : state * list (list message) :=
  match rs with
  | [] => (s, [])
  | r :: rs' =>
      let c := loop r s in
      let '(s', outs) := run rs' (state_after c) in
      (s', sent c :: outs)
  end.

(** [readVcc()]: [low] and [high] are the bytes read from [ADCL] and
    [ADCH] when the conversion is finished.  [(high<<8) | low] is computed
    in [int] and widened to [long]; the division [1125300L / result]
    rounds towards zero and has no result when [result] is 0. *)
Definition readVcc (low high : Z) : option Z :=
  let result := Z.lor (wrap_int (Z.shiftl high 8)) low in
  if result =? 0 then None else Some (Z.quot 1125300 result).

(** The argument of [sendBatteryLevel] in [sendBattLevel] when the supply
    reads [vcc] millivolts: [vcc - 1900] divided by [14.0], converted to
    [long] and passed as [uint8_t]. *)
Definition battery_level (vcc : Z) : Z :=
  wrap_uint8 (wrap_long (to_Z (fdiv (of_Z (wrap_long (vcc - 1900))) f14))).

(** The messages of a run, cycle after cycle. *)
Definition run_sent (rs : list readings) (s : state) : list message :=
  List.concat (snd (run rs s)).

End Sensebender.

(** ** The start-up self test of the Sensebender sketch

    [testMode()] is entered from [setup()] when the test pin reads LOW.
    Both of its branches end in a [while (1)] without [break] or
    [return].  The events recorded are the writes to the LED pin and the
    delays; the serial diagnostics are left out. *)
Module SelfTest.

Inductive level := LOW | HIGH.

Inductive event :=
| LedWrite (l : level)     (* digitalWrite(LED_PIN, l) *)
| Delay (ms : Z).          (* delay(ms) *)

(** Return code of the ATSHA204 driver for success (declared by that
    library, outside the sources). *)
Definition SHA204_SUCCESS : Z := 0.

(** What the three peripherals answer during the test. *)
Record peripherals := mk_peripherals {
  si7021_begin : bool;         (* humiditySensor.begin() *)
  flash_initialize : bool;     (* flash.initialize() *)
  sha204_wakeup : Z;           (* sha204.sha204c_wakeup(rx_buffer) *)
  sha204_serial : Z            (* sha204.getSerialNumber(rx_buffer) *)
}.

(** The value of [tests] when [if (tests == 3)] is reached. *)
Definition tests (p : peripherals) : Z :=
  let tests := 0 in
  let tests := if si7021_begin p then tests + 1 else tests in
  let tests := if flash_initialize p then tests + 1 else tests in
  let ret_code := sha204_wakeup p in
  if ret_code =? SHA204_SUCCESS then
    let ret_code := sha204_serial p in
    if negb (ret_code =? SHA204_SUCCESS) then tests else tests + 1
  else tests.

(** The two terminal loops of [testMode]. *)
Inductive terminal_loop := BlinkOk | SelftestFailed.

Definition verdict (p : peripherals) : terminal_loop :=
  if tests p =? 3 then BlinkOk else SelftestFailed.

(** The body of each [while (1)]. *)
Definition loop_body (l : terminal_loop) : list event :=
  match l with
  | BlinkOk => [LedWrite HIGH; Delay 200; LedWrite LOW; Delay 200]
  | SelftestFailed => []
  end.

Fixpoint iterations (l : terminal_loop) (n : nat) : list event :=
  match n with
  | O => []
  | S n' => loop_body l ++ iterations l n'
  end.

(** The events of [testMode] up to the end of the [n]-th iteration of
    its terminal loop. *)
Definition testMode (p : peripherals) (n : nat) : list event :=
  LedWrite HIGH :: iterations (verdict p) n.

(** The levels written to the LED pin, in order. *)
Fixpoint led_writes (es : list event) : list level :=
  match es with
  | [] => []
  | LedWrite l :: es' => l :: led_writes es'
  | Delay _ :: es' => led_writes es'
  end.

(** Where [setup()] goes after reading the test pin: into [testMode],
    which it never leaves, or on to normal operation. *)
Inductive boot := Halted (l : terminal_loop) | Online.

Definition setup_boot (test_pin : bool) (p : peripherals) : boot :=
  if negb test_pin then Halted (verdict p) else Online.

End SelfTest.

(** ** The door and motion sketch with [door_prev] and [motion_prev] *)
Module MotionSensor.
Import Sketch.
Local Open Scope sketch_scope.

Inductive message :=
| MsgDoor (v : string)       (* send(msg_door.set(door?"1":"0")) *)
| MsgMotion (v : string).    (* send(msg_motion.set(motion?"1":"0")) *)

Record state := mk_state { door_prev : bool; motion_prev : bool }.

Definition init : state := {| door_prev := false; motion_prev := false |}.

Definition set_door_prev (v : bool) (s : state) : state :=
  mk_state v (motion_prev s).
Definition set_motion_prev (v : bool) (s : state) : state :=
  mk_state (door_prev s) v.

(** One pass through [loop()], up to the call of [sleep]; the arguments
    are [digitalRead(DOOR_PIN) == HIGH] and
    [digitalRead(MOTION_PIN) == HIGH]. *)
Definition loop (door motion : bool) : M unit :=
  prev <- gets door_prev ;;
  when (negb (Bool.eqb door prev))
    (send (MsgDoor (if door then "1" else "0")%string) ;;
     modify (set_door_prev door)) ;;
  prev <- gets motion_prev ;;
  when (negb (Bool.eqb motion prev))
    (send (MsgMotion (if motion then "1" else "0")%string) ;;
     modify (set_motion_prev motion)).

(** A run of wake cycles, each given by the two pin levels read; the
    result is the state after the last cycle and all messages sent. *)
Fixpoint run (pins : list (bool * bool)) (s : state) : state * list message :=
  match pins with
  | [] => (s, [])
  | (door, motion) :: pins' =>
      let c := loop door motion s in
      let '(s', out) := run pins' (state_after c) in
      (s', sent c ++ out)
  end.

Definition door_reports (out : list message) : list string :=
  flat_map (fun m => match m with MsgDoor v => [v] | _ => [] end) out.
Definition motion_reports (out : list message) : list string :=
  flat_map (fun m => match m with MsgMotion v => [v] | _ => [] end) out.

End MotionSensor.

(** ** ProMini3v.ino: the same sketch behind [SEND_ONLY_CHANGES] *)
Module ProMini3v.
Import Sketch.
Local Open Scope sketch_scope.

Inductive message :=
| MsgDoor (v : string)
| MsgMotion (v : string).

(** [door_prev] and [motion_prev] are declared only under
    [#ifdef SEND_ONLY_CHANGES]; without it they are never read or
    written. *)
Record state := mk_state { door_prev : bool; motion_prev : bool }.

Definition init : state := {| door_prev := false; motion_prev := false |}.

Definition set_door_prev (v : bool) (s : state) : state :=
  mk_state v (motion_prev s).
Definition set_motion_prev (v : bool) (s : state) : state :=
  mk_state (door_prev s) v.

(** [// #define SEND_ONLY_CHANGES]: the macro is not defined. *)
Definition SEND_ONLY_CHANGES : bool := false.

(** The statements between [#ifdef SEND_ONLY_CHANGES] and [#endif] are
    compiled only when the macro is defined: the test around the send,
    and the assignment after it. *)
Definition loop_ifdef (send_only_changes door motion : bool) : M unit :=
  prev <- gets door_prev ;;
  when (if send_only_changes then negb (Bool.eqb door prev) else true)
    (send (MsgDoor (if door then "1" else "0")%string) ;;
     when send_only_changes (modify (set_door_prev door))) ;;
  prev <- gets motion_prev ;;
  when (if send_only_changes then negb (Bool.eqb motion prev) else true)
    (send (MsgMotion (if motion then "1" else "0")%string) ;;
     when send_only_changes (modify (set_motion_prev motion))).

(** One pass through [loop()] as the sketch is configured. *)
Definition loop : bool -> bool -> M unit := loop_ifdef SEND_ONLY_CHANGES.

(** A run of wake cycles, each given by the two pin levels read; the
    result is the state after the last cycle and all messages sent. *)
Fixpoint run (pins : list (bool * bool)) (s : state) : state * list message :=
  match pins with
  | [] => (s, [])
  | (door, motion) :: pins' =>
      let c := loop door motion s in
      let '(s', out) := run pins' (state_after c) in
      (s', sent c ++ out)
  end.

Definition door_reports (out : list message) : list string :=
  flat_map (fun m => match m with MsgDoor v => [v] | _ => [] end) out.
Definition motion_reports (out : list message) : list string :=
  flat_map (fun m => match m with MsgMotion v => [v] | _ => [] end) out.

End ProMini3v.


(** ** Concrete readings and states used in the examples below *)
Module Examples.
Import Avr Sketch Sensebender.

(** 21.50 degrees Celsius (70.70 Fahrenheit) at 40 percent humidity. *)
Definition mild : si7021_env := mk_env 2150 7070 40.
(** One degree warmer, same humidity. *)
Definition warmer : si7021_env := mk_env 2250 7250 40.
(** Same temperature as [mild], 43 percent humidity. *)
Definition damper : si7021_env := mk_env 2150 7070 43.

(** The globals when [setup()] returns after measuring [mild] at a supply
    of 3000 mV. *)
Definition after_setup : state := state_after (setup true mild 3000 init).

(** [after_setup] with five cycles counted since the last report. *)
Definition five_cycles_in : state := set_measureCount 5 after_setup.
(** A wake cycle that measures [mild] with both input pins LOW. *)
Definition calm : readings := mk_readings mild 3000 false false.
(** A wake cycle that measures [warmer] with both input pins LOW. *)
Definition warm : readings := mk_readings warmer 3000 false false.

End Examples.

(** ** Bounded checks by evaluation *)

(** [all_from P z n] tests [P] on the [n] integers from [z] upwards. *)
Fixpoint all_from (P : Z -> bool) (z : Z) (n : nat) : bool :=
  match n with
  | O => true
  | S n' => P z && all_from P (z + 1) n'
  end.

(** The first humidity sample [h] after the average is cleared, compared
    with the initial [lastHumidity]: is [diffHum] above the threshold? *)
Definition first_humidity_exceeds (h : Z) : bool :=
  Avr.fgt
    (Avr.abs (Avr.fsub (Avr.of_Z (-100))
       (RunningAverage.getAverage
          (RunningAverage.addValue (Avr.of_Z h)
             (RunningAverage.clear (RunningAverage.create Sensebender.AVERAGES))))))
    Sensebender.HUMI_TRANSMIT_THRESHOLD.

(** ** Vocabulary for statements about runs *)

(** The values of [l] that differ from the value kept before them,
    starting from [prev]: what a channel that reports changes only sends
    when it reads [l]. *)
Fixpoint changes (prev : bool) (l : list bool) : list bool :=
  match l with
  | [] => []
  | x :: l' => if Bool.eqb x prev then changes prev l' else x :: changes x l'
  end.

(** No element of [l] equals the one before it, [prev] coming first. *)
Fixpoint alternates (prev : bool) (l : list bool) : Prop :=
  match l with
  | [] => True
  | x :: l' => x <> prev /\ alternates x l'
  end.

(** With [lastHumidity] equal to the sample [h] and [h] the content of the
    window, is the humidity difference neither NaN nor above the
    threshold? *)
Definition steady_humidity (h : Z) : bool :=
  let diff := Avr.abs (Avr.fsub (Avr.of_Z h)
                (RunningAverage.getAverage
                   (RunningAverage.mk Sensebender.AVERAGES [Avr.of_Z h; Avr.of_Z h]))) in
  negb (Avr.isnan diff) && negb (Avr.fgt diff Sensebender.HUMI_TRANSMIT_THRESHOLD).

(** Does [battery_level] agree with the integer quotient? *)
Definition battery_level_is_quotient (vcc : Z) : bool :=
  Sensebender.battery_level vcc =? (Z.quot (vcc - 1900) 14) mod 256.

(** The two counters of the Sensebender sketch are in the range they keep
    during operation. *)
Definition counters_in_range (s : Sensebender.state) : Prop :=
  0 <= Sensebender.measureCount s <= Sensebender.FORCE_TRANSMIT_INTERVAL
  /\ 0 <= Sensebender.sendBattery s <= 60 + Sensebender.measureCount s.

(** An upper bound on the number of wake cycles until the battery level
    is reported next. *)
Definition cycles_to_battery (s : Sensebender.state) : Z :=
  if Sensebender.sendBattery s <? 60 then 91 - Sensebender.sendBattery s
  else 31 - Sensebender.measureCount s.

(** The last values and the newest sample of the window are those of the
    measurement [d]: the state right after [d] was sent. *)
Definition settled (d : Sensebender.si7021_env) (s : Sensebender.state) : Prop :=
  Sensebender.lastTemperature s
    = Sensebender.reading_temperature (Sensebender.isMetric s) d
  /\ Sensebender.lastHumidity s = Sensebender.humidityPercent d
  /\ RunningAverage.size (Sensebender.raHum s) = Sensebender.AVERAGES
  /\ exists rest,
       RunningAverage.window (Sensebender.raHum s)
         = Avr.of_Z (Sensebender.humidityPercent d) :: rest.

(** For the register pair that holds the 16-bit number [n]: does [readVcc]
    return 1125300 divided by [n] read as an [int], and nothing for 0? *)
Definition readVcc_is_quotient (n : Z) : bool :=
  match Sensebender.readVcc (n mod 256) (n / 256) with
  | None => n =? 0
  | Some v => negb (n =? 0) && (v =? Z.quot 1125300 (Avr.wrap_int n))
  end.

(** ** The states in which the sketch measures *)









(** * The Sensebender sketch: its functions as case analyses *)
Section SensebenderEquations.
Import Avr Sketch Sensebender.

Lemma tx_decision_orb (force : bool) (dT dH : float) :
  tx_decision force dT dH =
    force || isnan dH || fgt dT TEMP_TRANSMIT_THRESHOLD || fgt dH HUMI_TRANSMIT_THRESHOLD.
Proof.
  unfold tx_decision.
  destruct force, (isnan dH), (fgt dT _), (fgt dH _); reflexivity.
Qed.

Lemma sendBattLevel_eq (force : bool) (v : Z) (s : state) :
  sendBattLevel force v s =
    let s1 := if force then set_lastBattery (-1) s else s in
    if v =? lastBattery s1 then (tt, s1, [])
    else (tt, set_transmission_occured true (set_lastBattery v s1),
          [MsgBatt (fdiv (of_Z v) f1000);
           BatteryLevel (wrap_uint8 (wrap_long (to_Z
             (fdiv (of_Z (wrap_long (v - 1900))) f14))))]).
Proof.
  unfold sendBattLevel, bind, when, gets, modify, send, ret.
  destruct force; cbn; destruct (v =? _); reflexivity.
Qed.

Lemma sendTempHumidityMeasurements_eq (force : bool) (d : si7021_env) (v : Z) (s : state) :
  sendTempHumidityMeasurements force d v s =
    if transmits force d s then
      let th := [MsgTemp (reading_temperature (isMetric s) d);
                 MsgHum (wrap_int (humidityPercent d))] in
      if sendBattery s >? 60 then
        let b := sendBattLevel true v (after_tx d s) in
        (tt, set_sendBattery 0 (state_after b), th ++ sent b)
      else (tt, after_tx d s, th)
    else
      (tt, set_raHum (RunningAverage.addValue (of_Z (humidityPercent d)) (raHum s)) s, []).
Proof.
  unfold sendTempHumidityMeasurements, transmits, diffTemp, diffHum,
    sendBattLevel, state_after, sent.
  unfold bind, when, gets, modify, send, ret.
  cbn [raHum set_raHum lastTemperature lastHumidity isMetric].
  destruct (tx_decision _ _ _); [|reflexivity].
  cbn [sendBattery set_measureCount set_lastTemperature set_lastHumidity
       set_transmission_occured set_raHum].
  destruct (sendBattery s >? 60); [|reflexivity].
  cbn [lastBattery set_lastBattery negb].
  destruct (v =? -1); reflexivity.
Qed.

Lemma loop_eq (r : readings) (s : state) :
  loop r s =
    let th := sendTempHumidityMeasurements (forced s) (data r) (vcc r) (begin_cycle s) in
    let s3 := state_after th in
    let door_changed := negb (Bool.eqb (door_pin r) (old_door_val s3)) in
    let s4 := if door_changed then set_old_door_val (door_pin r) s3 else s3 in
    let motion_changed := negb (Bool.eqb (motion_pin r) (old_motion_val s4)) in
    let s5 := if motion_changed then set_old_motion_val (motion_pin r) s4 else s4 in
    (tt, s5,
     sent th
     ++ (if door_changed then [MsgDoor (if door_pin r then 1 else 0)] else [])
     ++ (if motion_changed then [MsgMotion (if motion_pin r then 1 else 0)] else [])).
Proof.
  unfold loop, begin_cycle, forced.
  unfold bind, when, gets, modify, ret.
  cbn [measureCount sendBattery set_measureCount set_sendBattery set_transmission_occured].
  destruct (wrap_int (measureCount s + 1) >? FORCE_TRANSMIT_INTERVAL);
  cbv beta iota zeta;
  match goal with |- context [sendTempHumidityMeasurements ?f ?d ?v ?st] =>
    destruct (sendTempHumidityMeasurements f d v st) as [[[] s3] o] end;
  unfold state_after, sent, send; cbn [fst snd];
  destruct (negb (Bool.eqb (door_pin r) (old_door_val s3)));
  cbn [old_motion_val set_old_door_val];
  destruct (negb (Bool.eqb (motion_pin r) (old_motion_val s3)));
  cbn; rewrite ?app_nil_r; reflexivity.
Qed.
End SensebenderEquations.

(** * What one call and one wake cycle do to each variable and channel *)
Section SensebenderCycle.
Import Avr Sketch Sensebender.

Ltac th_cases force d v s :=
  rewrite sendTempHumidityMeasurements_eq;
  destruct (transmits force d s);
  [ destruct (sendBattery s >? 60);
    [ rewrite sendBattLevel_eq; cbn -[wrap_int wrap_long wrap_uint8 fdiv of_Z to_Z RunningAverage.addValue reading_temperature];
      destruct (v =? -1) | ] | ];
  reflexivity.

Variables (force : bool) (d : si7021_env) (v : Z) (s : state).
Let c := sendTempHumidityMeasurements force d v s.

Lemma th_measureCount :
  measureCount (state_after c) = if transmits force d s then 0 else measureCount s.
Proof. subst c. th_cases force d v s. Qed.

Lemma th_sendBattery :
  sendBattery (state_after c) =
    if transmits force d s && (sendBattery s >? 60) then 0 else sendBattery s.
Proof. subst c. th_cases force d v s. Qed.

Lemma th_lastTemperature :
  lastTemperature (state_after c) =
    if transmits force d s then reading_temperature (isMetric s) d
    else lastTemperature s.
Proof. subst c. th_cases force d v s. Qed.

Lemma th_lastHumidity :
  lastHumidity (state_after c) =
    if transmits force d s then wrap_int (humidityPercent d) else lastHumidity s.
Proof. subst c. th_cases force d v s. Qed.

Lemma th_raHum :
  raHum (state_after c) =
    RunningAverage.addValue (of_Z (humidityPercent d)) (raHum s).
Proof. subst c. th_cases force d v s. Qed.

Lemma th_isMetric : isMetric (state_after c) = isMetric s.
Proof. subst c. th_cases force d v s. Qed.

Lemma th_old_door_val : old_door_val (state_after c) = old_door_val s.
Proof. subst c. th_cases force d v s. Qed.

Lemma th_old_motion_val : old_motion_val (state_after c) = old_motion_val s.
Proof. subst c. th_cases force d v s. Qed.

Lemma th_temperature_reports :
  temperature_reports (sent c) =
    if transmits force d s then [reading_temperature (isMetric s) d] else [].
Proof. subst c. th_cases force d v s. Qed.

Lemma th_humidity_reports :
  humidity_reports (sent c) =
    if transmits force d s then [wrap_int (humidityPercent d)] else [].
Proof. subst c. th_cases force d v s. Qed.

Lemma th_door_reports : door_reports (sent c) = [].
Proof. subst c. th_cases force d v s. Qed.

Lemma th_motion_reports : motion_reports (sent c) = [].
Proof. subst c. th_cases force d v s. Qed.

Lemma th_battery_reports :
  battery_reports (sent c) =
    if transmits force d s && (sendBattery s >? 60) && negb (v =? -1)
    then [wrap_uint8 (wrap_long (to_Z (fdiv (of_Z (wrap_long (v - 1900))) f14)))]
    else [].
Proof. subst c. th_cases force d v s. Qed.

Lemma th_silent : transmits force d s = false -> sent c = [].
Proof.
  intros H. subst c. rewrite sendTempHumidityMeasurements_eq, H. reflexivity.
Qed.
End SensebenderCycle.

Section SensebenderLoop.
Import Avr Sketch Sensebender.

Variables (r : readings) (s : state).
Let c := loop r s.

Lemma transmits_begin_cycle (f : bool) (d : si7021_env) :
  transmits f d (begin_cycle s) = transmits f d s.
Proof.
  unfold transmits, diffTemp, diffHum, begin_cycle.
  destruct (forced s); reflexivity.
Qed.

Lemma begin_cycle_measureCount :
  measureCount (begin_cycle s) =
    if forced s then 0 else wrap_int (measureCount s + 1).
Proof. unfold begin_cycle. destruct (forced s); reflexivity. Qed.

Lemma begin_cycle_sendBattery :
  sendBattery (begin_cycle s) = wrap_int (sendBattery s + 1).
Proof. unfold begin_cycle. destruct (forced s); reflexivity. Qed.

Lemma begin_cycle_old_door_val : old_door_val (begin_cycle s) = old_door_val s.
Proof. unfold begin_cycle. destruct (forced s); reflexivity. Qed.

Lemma begin_cycle_old_motion_val : old_motion_val (begin_cycle s) = old_motion_val s.
Proof. unfold begin_cycle. destruct (forced s); reflexivity. Qed.

Lemma begin_cycle_isMetric : isMetric (begin_cycle s) = isMetric s.
Proof. unfold begin_cycle. destruct (forced s); reflexivity. Qed.

Lemma begin_cycle_lastTemperature : lastTemperature (begin_cycle s) = lastTemperature s.
Proof. unfold begin_cycle. destruct (forced s); reflexivity. Qed.

Lemma begin_cycle_lastHumidity : lastHumidity (begin_cycle s) = lastHumidity s.
Proof. unfold begin_cycle. destruct (forced s); reflexivity. Qed.

Lemma begin_cycle_raHum : raHum (begin_cycle s) = raHum s.
Proof. unfold begin_cycle. destruct (forced s); reflexivity. Qed.

Ltac through_loop :=
  subst c; rewrite loop_eq; cbv zeta; unfold state_after, sent; cbn [fst snd];
  fold (state_after (sendTempHumidityMeasurements (forced s) (data r) (vcc r) (begin_cycle s)));
  fold (sent (sendTempHumidityMeasurements (forced s) (data r) (vcc r) (begin_cycle s)));
  repeat match goal with
  | |- context [if negb (Bool.eqb ?a ?b) then _ else _] =>
      destruct (negb (Bool.eqb a b)) eqn:?
  end;
  cbn [measureCount sendBattery isMetric lastTemperature lastHumidity raHum
       old_door_val old_motion_val set_old_door_val set_old_motion_val].

Lemma loop_measureCount :
  measureCount (state_after c) =
    if cycle_transmits r s then 0
    else wrap_int (measureCount s + 1).
Proof.
  through_loop; rewrite th_measureCount, begin_cycle_measureCount;
  unfold cycle_transmits; destruct (transmits _ _ _) eqn:T; try reflexivity;
  destruct (forced s) eqn:F; try reflexivity;
  unfold transmits in T; rewrite tx_decision_orb in T; discriminate T.
Qed.

Lemma loop_sendBattery :
  sendBattery (state_after c) =
    if cycle_transmits r s && (wrap_int (sendBattery s + 1) >? 60) then 0
    else wrap_int (sendBattery s + 1).
Proof.
  through_loop; rewrite th_sendBattery, begin_cycle_sendBattery; reflexivity.
Qed.

Lemma loop_lastTemperature :
  lastTemperature (state_after c) =
    if cycle_transmits r s then reading_temperature (isMetric s) (data r)
    else lastTemperature s.
Proof.
  through_loop;
  rewrite th_lastTemperature, begin_cycle_lastTemperature, begin_cycle_isMetric;
  reflexivity.
Qed.

Lemma loop_lastHumidity :
  lastHumidity (state_after c) =
    if cycle_transmits r s then wrap_int (humidityPercent (data r))
    else lastHumidity s.
Proof.
  through_loop; rewrite th_lastHumidity, begin_cycle_lastHumidity; reflexivity.
Qed.

Lemma loop_raHum :
  raHum (state_after c) =
    RunningAverage.addValue (of_Z (humidityPercent (data r))) (raHum s).
Proof. through_loop; rewrite th_raHum, begin_cycle_raHum; reflexivity. Qed.

Lemma loop_isMetric : isMetric (state_after c) = isMetric s.
Proof. through_loop; rewrite th_isMetric, begin_cycle_isMetric; reflexivity. Qed.

Lemma loop_old_door_val : old_door_val (state_after c) = door_pin r.
Proof.
  through_loop; try reflexivity;
  repeat match goal with
  | H : negb (Bool.eqb _ _) = false |- _ =>
      apply negb_false_iff, Bool.eqb_prop in H
  end; congruence.
Qed.

Lemma loop_old_motion_val : old_motion_val (state_after c) = motion_pin r.
Proof.
  through_loop; try reflexivity;
  repeat match goal with
  | H : negb (Bool.eqb _ _) = false |- _ =>
      apply negb_false_iff, Bool.eqb_prop in H
  end; cbn [old_motion_val set_old_door_val] in *; congruence.
Qed.

Ltac split_reports :=
  unfold temperature_reports, humidity_reports, door_reports, motion_reports,
    battery_reports;
  rewrite !flat_map_app; cbn [flat_map app];
  fold temperature_reports humidity_reports door_reports motion_reports
    battery_reports;
  rewrite ?app_nil_r.

Lemma loop_temperature_reports :
  temperature_reports (sent c) =
    if cycle_transmits r s then [reading_temperature (isMetric s) (data r)]
    else [].
Proof.
  through_loop; split_reports;
  rewrite th_temperature_reports, begin_cycle_isMetric; reflexivity.
Qed.

Lemma loop_humidity_reports :
  humidity_reports (sent c) =
    if cycle_transmits r s then [wrap_int (humidityPercent (data r))] else [].
Proof. through_loop; split_reports; rewrite th_humidity_reports; reflexivity. Qed.

Lemma loop_battery_reports :
  battery_reports (sent c) =
    if cycle_transmits r s && (wrap_int (sendBattery s + 1) >? 60)
       && negb (vcc r =? -1)
    then [wrap_uint8 (wrap_long (to_Z (fdiv (of_Z (wrap_long (vcc r - 1900))) f14)))]
    else [].
Proof.
  through_loop; split_reports;
  rewrite th_battery_reports, begin_cycle_sendBattery; reflexivity.
Qed.

Lemma loop_door_reports :
  door_reports (sent c) =
    if Bool.eqb (door_pin r) (old_door_val s) then []
    else [if door_pin r then 1 else 0].
Proof.
  through_loop; split_reports; rewrite th_door_reports;
  rewrite th_old_door_val, begin_cycle_old_door_val in *;
  destruct (Bool.eqb (door_pin r) (old_door_val s)); try discriminate; reflexivity.
Qed.

Lemma loop_motion_reports :
  motion_reports (sent c) =
    if Bool.eqb (motion_pin r) (old_motion_val s) then []
    else [if motion_pin r then 1 else 0].
Proof.
  through_loop; split_reports; rewrite th_motion_reports;
  cbn [old_motion_val set_old_door_val] in *;
  rewrite th_old_motion_val, begin_cycle_old_motion_val in *;
  destruct (Bool.eqb (motion_pin r) (old_motion_val s)); try discriminate; reflexivity.
Qed.
End SensebenderLoop.

(** * Door and motion channels (C1) *)
Section DigitalChannels.
Import Sketch.

Lemma MotionSensor_loop_eq (door motion : bool) (s : MotionSensor.state) :
  MotionSensor.loop door motion s =
    (tt,
     MotionSensor.mk_state door motion,
     (if Bool.eqb door (MotionSensor.door_prev s) then []
      else [MotionSensor.MsgDoor (if door then "1" else "0")%string])
     ++ (if Bool.eqb motion (MotionSensor.motion_prev s) then []
         else [MotionSensor.MsgMotion (if motion then "1" else "0")%string])).
Proof.
  destruct s as [dp mp], door, motion, dp, mp; reflexivity.
Qed.

Lemma ProMini3v_loop_ifdef_defined (door motion : bool) (s : ProMini3v.state) :
  ProMini3v.loop_ifdef true door motion s =
    (tt,
     ProMini3v.mk_state door motion,
     (if Bool.eqb door (ProMini3v.door_prev s) then []
      else [ProMini3v.MsgDoor (if door then "1" else "0")%string])
     ++ (if Bool.eqb motion (ProMini3v.motion_prev s) then []
         else [ProMini3v.MsgMotion (if motion then "1" else "0")%string])).
Proof.
  destruct s as [dp mp], door, motion, dp, mp; reflexivity.
Qed.

Lemma ProMini3v_loop_eq (door motion : bool) (s : ProMini3v.state) :
  ProMini3v.loop door motion s =
    (tt, s,
     [ProMini3v.MsgDoor (if door then "1" else "0")%string;
      ProMini3v.MsgMotion (if motion then "1" else "0")%string]).
Proof. reflexivity. Qed.

(** C1, as stated, fails on ProMini3v.ino: the sketch sends the door value
    of a cycle although it equals the value sent in the cycle before.
    Here the claim is quantified over two consecutive cycles, the first
    of which fixes the last transmitted door value [v1]. *)
Lemma ProMini3v_resends_unchanged_door :
  ~ (forall (s : ProMini3v.state) (door1 motion1 door2 motion2 : bool),
       let c1 := ProMini3v.loop door1 motion1 s in
       let c2 := ProMini3v.loop door2 motion2 (state_after c1) in
       In (ProMini3v.MsgDoor (if door1 then "1" else "0")%string) (sent c1) ->
       (In (ProMini3v.MsgDoor (if door2 then "1" else "0")%string) (sent c2)
        <-> door2 <> door1)).
Proof.
  intros H.
  specialize (H ProMini3v.init false false false false).
  cbv zeta in H. rewrite !ProMini3v_loop_eq in H.
  destruct H as [H _]; [left; reflexivity|].
  apply H; [left; reflexivity|reflexivity].
Qed.

(** C1 (amended): in the Sensebender sketch and in the door/motion sketch
    that keeps [door_prev] and [motion_prev], a wake cycle sends a report
    for the door (the motion) channel exactly when the value read differs
    from the stored last value, the report carries the new value, and
    after the cycle the stored value equals the value read.  ProMini3v.ino
    behaves the same when [SEND_ONLY_CHANGES] is defined; as configured
    (macro not defined) it sends both values on every cycle and keeps no
    last value. *)
Theorem digital_channels_report_changes :
  (forall (r : Sensebender.readings) (s : Sensebender.state),
     let c := Sensebender.loop r s in
     Sensebender.door_reports (sent c) =
       (if Bool.eqb (Sensebender.door_pin r) (Sensebender.old_door_val s) then []
        else [if Sensebender.door_pin r then 1 else 0])
     /\ Sensebender.old_door_val (state_after c) = Sensebender.door_pin r
     /\ Sensebender.motion_reports (sent c) =
       (if Bool.eqb (Sensebender.motion_pin r) (Sensebender.old_motion_val s) then []
        else [if Sensebender.motion_pin r then 1 else 0])
     /\ Sensebender.old_motion_val (state_after c) = Sensebender.motion_pin r)
  /\ (forall (door motion : bool) (s : MotionSensor.state),
       let c := MotionSensor.loop door motion s in
       sent c =
         (if Bool.eqb door (MotionSensor.door_prev s) then []
          else [MotionSensor.MsgDoor (if door then "1" else "0")%string])
         ++ (if Bool.eqb motion (MotionSensor.motion_prev s) then []
             else [MotionSensor.MsgMotion (if motion then "1" else "0")%string])
       /\ MotionSensor.door_prev (state_after c) = door
       /\ MotionSensor.motion_prev (state_after c) = motion)
  /\ (forall (door motion : bool) (s : ProMini3v.state),
       let c := ProMini3v.loop_ifdef true door motion s in
       sent c =
         (if Bool.eqb door (ProMini3v.door_prev s) then []
          else [ProMini3v.MsgDoor (if door then "1" else "0")%string])
         ++ (if Bool.eqb motion (ProMini3v.motion_prev s) then []
             else [ProMini3v.MsgMotion (if motion then "1" else "0")%string])
       /\ ProMini3v.door_prev (state_after c) = door
       /\ ProMini3v.motion_prev (state_after c) = motion)
  /\ (forall (door motion : bool) (s : ProMini3v.state),
       let c := ProMini3v.loop door motion s in
       sent c =
         [ProMini3v.MsgDoor (if door then "1" else "0")%string;
          ProMini3v.MsgMotion (if motion then "1" else "0")%string]
       /\ state_after c = s).
Proof.
  split; [|split; [|split]].
  - intros r s c. subst c.
    split; [apply loop_door_reports|].
    split; [apply loop_old_door_val|].
    split; [apply loop_motion_reports|apply loop_old_motion_val].
  - intros door motion s c. subst c.
    rewrite MotionSensor_loop_eq. repeat split.
  - intros door motion s c. subst c.
    rewrite ProMini3v_loop_ifdef_defined. repeat split.
  - intros door motion s c. subst c.
    rewrite ProMini3v_loop_eq. repeat split.
Qed.
End DigitalChannels.

(** * Arithmetic facts *)
Section Arithmetic.
Import Avr.

Lemma wrap_int_small (z : Z) : -32768 <= z < 32768 -> wrap_int z = z.
Proof. intros H. unfold wrap_int. rewrite Z.mod_small; lia. Qed.

Lemma all_from_spec (P : Z -> bool) (n : nat) :
  forall z, all_from P z n = true ->
  forall x, z <= x < z + Z.of_nat n -> P x = true.
Proof.
  induction n as [|n IH]; intros z H x Hx.
  - simpl in Hx. lia.
  - cbn [all_from] in H. apply andb_true_iff in H as [Hz Hrest].
    destruct (Z.eq_dec x z) as [->|Hne]; [exact Hz|].
    apply (IH (z + 1) Hrest). lia.
Qed.

(** A value never differs from itself by more than the threshold, NaN
    and the infinities included. *)
Lemma fsub_diag_finite (sx : bool) (m : positive) (e : Z) :
  fsub (S754_finite sx m e) (S754_finite sx m e) = S754_zero false.
Proof.
  assert (D : forall a : Z, IntDef.Z.sub a a = 0) by (intros a; apply Z.sub_diag).
  unfold fsub, SFsub. cbv zeta. rewrite D. reflexivity.
Qed.

Lemma same_value_within_threshold (x : float) :
  fgt (abs (fsub x x)) f0_5 = false.
Proof.
  destruct x as [[]|[]| |sx m e]; try reflexivity.
  rewrite fsub_diag_finite. reflexivity.
Qed.
End Arithmetic.

(** * Temperature and humidity: when the pair is sent (C2, C4, C10) *)
Section TemperatureHumidity.
Import Avr Sketch Sensebender Examples.

Lemma first_humidity_exceeds_all :
  all_from first_humidity_exceeds 0 (Z.to_nat 65536) = true.
Proof. vm_compute. reflexivity. Qed.

(** With [lastHumidity] at its initial value and an empty window, every
    sample of an [unsigned int] is further than the threshold away. *)
Lemma sentinel_humidity_exceeds (d : si7021_env) (s : state) :
  0 <= humidityPercent d < 65536 ->
  lastHumidity s = -100 ->
  raHum s = RunningAverage.create AVERAGES ->
  fgt (diffHum d s) HUMI_TRANSMIT_THRESHOLD = true.
Proof.
  intros Hh HL HR. unfold diffHum. rewrite HL, HR.
  apply (all_from_spec first_humidity_exceeds _ 0 first_humidity_exceeds_all).
  cbn. lia.
Qed.

Lemma exceeding_humidity_transmits (force : bool) (d : si7021_env) (s : state) :
  fgt (diffHum d s) HUMI_TRANSMIT_THRESHOLD = true -> transmits force d s = true.
Proof.
  intros H. unfold transmits. rewrite tx_decision_orb, H.
  apply orb_true_r.
Qed.

(** A temperature equal to the last one sent never triggers by itself. *)
Lemma unchanged_temperature_within_threshold (d : si7021_env) (s : state) :
  lastTemperature s = reading_temperature (isMetric s) d ->
  fgt (diffTemp d s) TEMP_TRANSMIT_THRESHOLD = false.
Proof.
  intros H. unfold diffTemp. rewrite H. apply same_value_within_threshold.
Qed.

(** C2: [sendTempHumidityMeasurements] sends the temperature and humidity
    pair exactly when the temperature differs from [lastTemperature] by
    more than 0.5, or the running average of the humidity differs from
    [lastHumidity] by more than 0.5, or that difference is NaN, or the
    force flag is set; otherwise it sends nothing.  When it sends, the
    two last values are overwritten with the values sent.  In the state
    of the first call, where the last values are the initial -100 and the
    window is empty, the decision is true whatever the sensor returns. *)
Theorem temp_hum_group_transmit_rule :
  forall (force : bool) (d : si7021_env) (v : Z) (s : state),
    0 <= humidityPercent d < 65536 ->
    let c := sendTempHumidityMeasurements force d v s in
    transmits force d s =
      (fgt (diffTemp d s) TEMP_TRANSMIT_THRESHOLD
       || fgt (diffHum d s) HUMI_TRANSMIT_THRESHOLD
       || isnan (diffHum d s)
       || force)
    /\ temperature_reports (sent c) =
         (if transmits force d s then [reading_temperature (isMetric s) d] else [])
    /\ humidity_reports (sent c) =
         (if transmits force d s then [wrap_int (humidityPercent d)] else [])
    /\ (transmits force d s = false -> sent c = [])
    /\ lastTemperature (state_after c) =
         (if transmits force d s then reading_temperature (isMetric s) d
          else lastTemperature s)
    /\ lastHumidity (state_after c) =
         (if transmits force d s then wrap_int (humidityPercent d)
          else lastHumidity s)
    /\ (lastHumidity s = -100 -> raHum s = RunningAverage.create AVERAGES ->
        transmits force d s = true).
Proof.
  intros force d v s Hh c. subst c.
  split.
  { unfold transmits. rewrite tx_decision_orb.
    destruct force, (isnan (diffHum d s)), (fgt (diffTemp d s) _),
      (fgt (diffHum d s) _); reflexivity. }
  split; [apply th_temperature_reports|].
  split; [apply th_humidity_reports|].
  split; [apply th_silent|].
  split; [apply th_lastTemperature|].
  split; [apply th_lastHumidity|].
  intros HL HR. apply exceeding_humidity_transmits.
  apply sentinel_humidity_exceeds; assumption.
Qed.

Lemma temp_hum_group_transmit_rule_witness :
  0 <= humidityPercent mild < 65536
  /\ transmits false mild (before_first_measurement true init) = true
  /\ temperature_reports
       (sent (sendTempHumidityMeasurements false mild 3000
                (before_first_measurement true init)))
     = [reading_temperature true mild].
Proof.
  assert (H : 0 <= humidityPercent mild < 65536) by (cbn; lia).
  split; [exact H|].
  pose proof (temp_hum_group_transmit_rule false mild 3000
                (before_first_measurement true init) H) as T.
  cbv zeta in T.
  destruct T as (_ & Ht & _ & _ & _ & _ & Hs).
  split; [apply Hs; reflexivity|].
  rewrite Ht, (Hs eq_refl eq_refl). reflexivity.
Defined.

(** C4, as stated, fails: with the force flag clear and the humidity
    unchanged, a temperature one degree above the last one sent makes the
    sketch send the humidity too. *)
Lemma temperature_trigger_sends_humidity :
  ~ (forall (d : si7021_env) (v : Z) (s : state),
       fgt (diffHum d s) HUMI_TRANSMIT_THRESHOLD = false ->
       isnan (diffHum d s) = false ->
       humidity_reports (sent (sendTempHumidityMeasurements false d v s)) = []).
Proof.
  intros H.
  specialize (H warmer 3000 after_setup eq_refl eq_refl).
  vm_compute in H. discriminate H.
Qed.

(** C4 (amended): temperature and humidity are always sent together.  A
    call of [sendTempHumidityMeasurements] either sends both values, taken
    from the same measurement, or neither; it sends both as soon as one of
    the two thresholds is exceeded, the humidity difference is NaN or the
    force flag is set. *)
Theorem temperature_and_humidity_sent_together :
  forall (force : bool) (d : si7021_env) (v : Z) (s : state),
    let c := sendTempHumidityMeasurements force d v s in
    (temperature_reports (sent c), humidity_reports (sent c)) =
      (if force || isnan (diffHum d s)
          || fgt (diffTemp d s) TEMP_TRANSMIT_THRESHOLD
          || fgt (diffHum d s) HUMI_TRANSMIT_THRESHOLD
       then ([reading_temperature (isMetric s) d], [wrap_int (humidityPercent d)])
       else ([], [])).
Proof.
  intros force d v s c. subst c.
  rewrite th_temperature_reports, th_humidity_reports.
  unfold transmits. rewrite tx_decision_orb.
  destruct (force || _ || _ || _); reflexivity.
Qed.

(** C10: whenever [sendTempHumidityMeasurements] sends, the humidity sent
    and stored in [lastHumidity] is [data.humidityPercent] converted to
    [int], while the quantity compared with the threshold is the distance
    of the running average from [lastHumidity].  The two can differ: after
    [setup()] measured 40 percent, a sample of 43 percent gives an average
    of 41.5, which is compared, and 43 is sent and stored. *)
Theorem humidity_sent_is_raw_sample :
  (forall (force : bool) (d : si7021_env) (v : Z) (s : state),
     let c := sendTempHumidityMeasurements force d v s in
     humidity_reports (sent c) =
       (if transmits force d s then [wrap_int (humidityPercent d)] else [])
     /\ lastHumidity (state_after c) =
       (if transmits force d s then wrap_int (humidityPercent d) else lastHumidity s)
     /\ transmits force d s =
       tx_decision force (diffTemp d s)
         (abs (fsub (of_Z (lastHumidity s))
                 (RunningAverage.getAverage (raHum (state_after c))))))
  /\ (let c := sendTempHumidityMeasurements false damper 3000 after_setup in
      humidity_reports (sent c) = [43]
      /\ lastHumidity (state_after c) = 43
      /\ RunningAverage.getAverage (raHum (state_after c))
         = fdiv (of_Z 83) (of_Z 2)
      /\ RunningAverage.getAverage (raHum (state_after c)) <> of_Z 43).
Proof.
  split.
  - intros force d v s c. subst c.
    split; [apply th_humidity_reports|].
    split; [apply th_lastHumidity|].
    rewrite th_raHum. reflexivity.
  - vm_compute. repeat split. discriminate.
Qed.
End TemperatureHumidity.

(** * The two counters across wake cycles (C3, C5) *)
Section Counters.
Import Avr Sketch Sensebender Examples.

Lemma run_cons (r : readings) (rs : list readings) (s : state) :
  run (r :: rs) s =
    (fst (run rs (state_after (loop r s))),
     sent (loop r s) :: snd (run rs (state_after (loop r s)))).
Proof.
  cbn [run]. destruct (run rs (state_after (loop r s))). reflexivity.
Qed.

Lemma forced_transmits (r : readings) (s : state) :
  forced s = true -> cycle_transmits r s = true.
Proof.
  intros F. unfold cycle_transmits, transmits.
  rewrite tx_decision_orb, F. reflexivity.
Qed.

(** C3, as stated, fails: five cycles after the last report and far from
    the interval, a temperature one degree higher is sent and
    [measureCount] drops from 5 to 0 on a cycle that is not forced. *)
Lemma measureCount_reset_by_threshold :
  ~ (forall (r : readings) (s : state),
       0 <= measureCount s <= FORCE_TRANSMIT_INTERVAL ->
       if forced s then measureCount (state_after (loop r s)) = 0
       else measureCount s <= measureCount (state_after (loop r s))).
Proof.
  intros H.
  assert (R : 0 <= measureCount five_cycles_in <= FORCE_TRANSMIT_INTERVAL)
    by (vm_compute; split; discriminate).
  specialize (H warm five_cycles_in R).
  vm_compute in H. apply H. reflexivity.
Qed.

(** C3 (amended): in a wake cycle begun with [measureCount] between 0 and
    [FORCE_TRANSMIT_INTERVAL], [measureCount] ends at 0 when temperature
    and humidity were sent in the cycle, whatever triggered the sending,
    and one higher than before when they were not.  A cycle in which the
    incremented counter exceeds the interval always sends, and the
    counter stays between 0 and the interval. *)
Theorem measureCount_resets_on_every_transmission :
  forall (r : readings) (s : state),
    0 <= measureCount s <= FORCE_TRANSMIT_INTERVAL ->
    let c := loop r s in
    (temperature_reports (sent c) <> [] -> measureCount (state_after c) = 0)
    /\ (temperature_reports (sent c) = [] ->
        measureCount (state_after c) = measureCount s + 1)
    /\ (forced s = true -> temperature_reports (sent c) <> [])
    /\ 0 <= measureCount (state_after c) <= FORCE_TRANSMIT_INTERVAL.
Proof.
  intros r s R c. subst c.
  unfold FORCE_TRANSMIT_INTERVAL in *.
  rewrite loop_temperature_reports, loop_measureCount.
  pose proof (forced_transmits r s) as F.
  assert (W : wrap_int (measureCount s + 1) = measureCount s + 1)
    by (apply wrap_int_small; lia).
  unfold forced, FORCE_TRANSMIT_INTERVAL in *. rewrite W in *.
  destruct (cycle_transmits r s).
  - repeat split; try lia; try discriminate.
  - repeat split; try lia.
    intros E. contradiction E. reflexivity.
Qed.

Lemma measureCount_resets_on_every_transmission_witness :
  0 <= measureCount five_cycles_in <= FORCE_TRANSMIT_INTERVAL
  /\ measureCount (state_after (loop warm five_cycles_in)) = 0
  /\ measureCount (state_after (loop calm five_cycles_in)) = 6.
Proof.
  assert (R : 0 <= measureCount five_cycles_in <= FORCE_TRANSMIT_INTERVAL)
    by (vm_compute; split; discriminate).
  split; [exact R|]. split.
  - apply (measureCount_resets_on_every_transmission warm five_cycles_in R).
    vm_compute. discriminate.
  - apply (measureCount_resets_on_every_transmission calm five_cycles_in R).
    vm_compute. reflexivity.
Defined.

(** C5: evaluated on the code.  After [setup()] has sent the first
    reading, thirty wake cycles with the same reading send nothing at
    all: in the thirtieth [measureCount] reaches 30, which does not
    exceed the interval.  The forced transmission comes in the
    thirty-first cycle. *)
Theorem forced_transmission_comes_on_cycle_31 :
  temperature_reports (sent (setup true mild 3000 init)) = [reading_temperature true mild]
  /\ snd (run (repeat calm 30) after_setup) = repeat [] 30
  /\ measureCount (fst (run (repeat calm 30) after_setup)) = 30
  /\ forced (fst (run (repeat calm 29) after_setup)) = false
  /\ forced (fst (run (repeat calm 30) after_setup)) = true
  /\ sent (loop calm (fst (run (repeat calm 30) after_setup)))
     = [MsgTemp (reading_temperature true mild); MsgHum 40].
Proof. vm_compute. repeat split. Qed.
End Counters.

(** * Battery reports (C7) *)
Section Battery.
Import Avr Sketch Sensebender Examples.

Ltac batt_cases force v :=
  rewrite sendBattLevel_eq; destruct force;
  cbn -[wrap_int wrap_long wrap_uint8 fdiv of_Z to_Z Z.eqb];
  match goal with |- context [v =? ?x] => destruct (v =? x) end;
  reflexivity.

Lemma batt_frame (force : bool) (v : Z) (s : state) :
  let b := sendBattLevel force v s in
  measureCount (state_after b) = measureCount s
  /\ sendBattery (state_after b) = sendBattery s
  /\ isMetric (state_after b) = isMetric s
  /\ lastTemperature (state_after b) = lastTemperature s
  /\ lastHumidity (state_after b) = lastHumidity s
  /\ old_door_val (state_after b) = old_door_val s
  /\ old_motion_val (state_after b) = old_motion_val s
  /\ raHum (state_after b) = raHum s
  /\ temperature_reports (sent b) = []
  /\ humidity_reports (sent b) = [].
Proof.
  cbv zeta. repeat split; batt_cases force v.
Qed.

Lemma batt_first_report (v : Z) (s : state) :
  let b := sendBattLevel false v s in
  battery_reports (sent b) =
    (if v =? lastBattery s then []
     else [wrap_uint8 (wrap_long (to_Z (fdiv (of_Z (wrap_long (v - 1900))) f14)))])
  /\ lastBattery (state_after b) = v.
Proof.
  cbv zeta. rewrite sendBattLevel_eq. cbv zeta iota beta.
  destruct (v =? lastBattery s) eqn:E; [|split; reflexivity].
  apply Z.eqb_eq in E. split; [reflexivity|]. symmetry. exact E.
Qed.

Lemma setup_eq (metric : bool) (d : si7021_env) (v : Z) (s : state) :
  setup metric d v s =
    let th := sendTempHumidityMeasurements false d v (before_first_measurement metric s) in
    let b := sendBattLevel false v (state_after th) in
    (tt, state_after b, sent th ++ sent b).
Proof.
  unfold setup, before_first_measurement.
  unfold bind at 1 2 3. unfold modify at 1 2.
  cbn [raHum set_isMetric].
  destruct (sendTempHumidityMeasurements false d v _) as [[[] s1] o1].
  unfold state_after. cbn [fst snd].
  destruct (sendBattLevel false v s1) as [[[] s2] o2].
  reflexivity.
Qed.

Lemma setup_sendBattery (metric : bool) (d : si7021_env) (v : Z) :
  sendBattery (state_after (setup metric d v init)) = 0.
Proof.
  rewrite setup_eq. cbv zeta. unfold state_after at 1. cbn [fst snd].
  fold (state_after (sendBattLevel false v
          (state_after (sendTempHumidityMeasurements false d v
                          (before_first_measurement metric init))))).
  destruct (batt_frame false v
             (state_after (sendTempHumidityMeasurements false d v
                             (before_first_measurement metric init))))
    as (_ & -> & _).
  rewrite th_sendBattery. cbn [sendBattery before_first_measurement set_raHum set_isMetric init].
  destruct (transmits _ _ _); reflexivity.
Qed.

(** While the counter cannot pass 60, no battery level is reported. *)
Lemma battery_quiet (rs : list readings) :
  forall s : state,
    0 <= sendBattery s ->
    sendBattery s + Z.of_nat (List.length rs) <= 60 ->
    flat_map battery_reports (snd (run rs s)) = [].
Proof.
  induction rs as [|r rs IH]; intros s H0 H60; [reflexivity|].
  rewrite run_cons. cbn [snd flat_map].
  cbn [List.length] in H60. rewrite Nat2Z.inj_succ in H60.
  assert (W : wrap_int (sendBattery s + 1) = sendBattery s + 1)
    by (apply wrap_int_small; lia).
  assert (G : (sendBattery s + 1 >? 60) = false)
    by (rewrite Z.gtb_ltb; apply Z.ltb_ge; lia).
  rewrite loop_battery_reports, W, G, andb_false_r. cbn [andb app].
  apply IH; rewrite loop_sendBattery, W, G, andb_false_r; lia.
Qed.

(** C7, as stated, fails: the battery report is not independent of the
    [measureCount] cadence.  Two states reached from [setup()] by 60 wake
    cycles, equal in everything but [measureCount] (29 and 30), behave
    differently in the next cycle on the same measurement: where
    [measureCount] passes the interval the battery level is reported and
    [sendBattery] cleared, in the other nothing is reported although
    [sendBattery] has passed 60. *)
Lemma battery_report_depends_on_measureCount :
  ~ (forall (r : readings) (rs rs' : list readings),
       let s := fst (run rs after_setup) in
       let s' := fst (run rs' after_setup) in
       s' = set_measureCount (measureCount s') s ->
       battery_reports (sent (loop r s')) = battery_reports (sent (loop r s))).
Proof.
  intros H.
  specialize (H calm (repeat calm 60) (repeat calm 28 ++ [warm] ++ repeat calm 31)).
  cbv zeta in H.
  assert (E : fst (run (repeat calm 28 ++ [warm] ++ repeat calm 31) after_setup)
              = set_measureCount
                  (measureCount
                     (fst (run (repeat calm 28 ++ [warm] ++ repeat calm 31) after_setup)))
                  (fst (run (repeat calm 60) after_setup)))
    by (vm_compute; reflexivity).
  specialize (H E). vm_compute in H. discriminate H.
Qed.

(** C7 (amended): the battery level is reported at most once in any 61
    consecutive wake cycles, so at most once every 60.  It has a counter of
    its own, [sendBattery], incremented in every cycle, but it is not
    independent of the [measureCount] cadence: it is reported exactly in
    the cycles that send temperature and humidity (forced by
    [measureCount] or triggered by a threshold) while [sendBattery] has
    passed 60 and the supply does not read -1, and [sendBattery] is cleared
    only in the cycles that send the pair with the counter past 60.  After
    [setup()] none of the first 60 cycles reports the battery level. *)
Theorem battery_reported_at_most_once_in_61_cycles :
  forall (rs : list readings) (s : state),
    (List.length rs <= 61)%nat ->
    (List.length (flat_map battery_reports (snd (run rs s))) <= 1)%nat
    /\ (forall r : readings,
          battery_reports (sent (loop r s)) <> [] <->
          (temperature_reports (sent (loop r s)) <> []
           /\ (wrap_int (sendBattery s + 1) >? 60) = true
           /\ vcc r <> -1))
    /\ (forall r : readings,
          sendBattery (state_after (loop r s)) =
            if cycle_transmits r s && (wrap_int (sendBattery s + 1) >? 60) then 0
            else wrap_int (sendBattery s + 1))
    /\ (forall r : readings,
          temperature_reports (sent (loop r s)) <> [] <-> cycle_transmits r s = true)
    /\ (forall (metric : bool) (d : si7021_env) (v : Z),
          (List.length rs <= 60)%nat ->
          flat_map battery_reports
            (snd (run rs (state_after (setup metric d v init)))) = []).
Proof.
  intros rs s L. split; [|split; [|split; [|split]]].
  - revert s L. induction rs as [|r rs IH]; intros s L; [cbn; lia|].
    rewrite run_cons. cbn [snd flat_map]. rewrite length_app.
    cbn [List.length] in L.
    rewrite loop_battery_reports.
    destruct (cycle_transmits r s && (wrap_int (sendBattery s + 1) >? 60)) eqn:B.
    + rewrite battery_quiet.
      * destruct (negb (vcc r =? -1)); cbn; lia.
      * rewrite loop_sendBattery, B. lia.
      * rewrite loop_sendBattery, B. lia.
    + cbn [andb List.length]. apply IH. lia.
  - intros r. rewrite loop_battery_reports, loop_temperature_reports.
    destruct (cycle_transmits r s), (wrap_int (sendBattery s + 1) >? 60),
             (Z.eqb_spec (vcc r) (-1)); cbn [andb negb]; split;
      try (intros H; contradiction H; reflexivity);
      try (intros (H1 & H2 & H3); try discriminate H2;
           try contradiction; try (contradiction H1; reflexivity));
      try (intros _; repeat split; try assumption; discriminate);
      try discriminate.
  - intros r. apply loop_sendBattery.
  - intros r. rewrite loop_temperature_reports.
    destruct (cycle_transmits r s); split; intros H; try reflexivity;
      try discriminate; contradiction H; reflexivity.
  - intros metric d v L60. apply battery_quiet; rewrite setup_sendBattery; lia.
Qed.

Lemma battery_reported_at_most_once_in_61_cycles_witness :
  (List.length (repeat warm 61) <= 61)%nat
  /\ (List.length (flat_map battery_reports
                     (snd (run (repeat warm 61)
                             (set_sendBattery 60 after_setup)))) <= 1)%nat.
Proof.
  assert (L : (List.length (repeat warm 61) <= 61)%nat)
    by (rewrite repeat_length; lia).
  split; [exact L|].
  exact (proj1 (battery_reported_at_most_once_in_61_cycles
                  (repeat warm 61) (set_sendBattery 60 after_setup) L)).
Defined.
End Battery.

(** * The first readings after reset (C8) *)
Section FirstReadings.
Import Avr Sketch Sensebender Examples.

(** C8, as stated, fails for the digital channels: [old_door_val] starts
    as [false], a value the pin can read, and a door pin that reads LOW
    in the first wake cycle is not reported. *)
Lemma first_door_reading_low_is_not_sent :
  ~ (forall (metric : bool) (d : si7021_env) (v : Z) (r : readings),
       door_reports (sent (loop r (state_after (setup metric d v init)))) <> []).
Proof.
  intros H. apply (H true mild 3000 calm). vm_compute. reflexivity.
Qed.

(** C8 (amended): the last values of temperature, humidity and battery
    start at -100, those of door and motion at [false].  The first
    measurement, taken in [setup()], is sent whatever temperature and
    humidity the sensor returns, and stored as the new last values; the
    first supply voltage is reported unless it reads -100, and stored.
    On the door and motion channels the first wake cycle reports the value
    read only if it is HIGH. *)
Theorem first_readings_after_reset :
  forall (metric : bool) (d : si7021_env) (v : Z) (r : readings),
    0 <= humidityPercent d < 65536 ->
    let c0 := setup metric d v init in
    let c1 := loop r (state_after c0) in
    (lastTemperature init = of_Z (-100) /\ lastHumidity init = -100
     /\ lastBattery init = -100
     /\ old_door_val init = false /\ old_motion_val init = false)
    /\ temperature_reports (sent c0) = [reading_temperature metric d]
    /\ humidity_reports (sent c0) = [wrap_int (humidityPercent d)]
    /\ battery_reports (sent c0) =
         (if v =? -100 then []
          else [wrap_uint8 (wrap_long (to_Z (fdiv (of_Z (wrap_long (v - 1900))) f14)))])
    /\ lastTemperature (state_after c0) = reading_temperature metric d
    /\ lastHumidity (state_after c0) = wrap_int (humidityPercent d)
    /\ lastBattery (state_after c0) = v
    /\ door_reports (sent c1) = (if door_pin r then [1] else [])
    /\ motion_reports (sent c1) = (if motion_pin r then [1] else []).
Proof.
  intros metric d v r Hh c0 c1.
  split; [repeat split|].
  set (s0 := before_first_measurement metric init).
  set (th := sendTempHumidityMeasurements false d v s0).
  assert (T : transmits false d s0 = true).
  { apply exceeding_humidity_transmits.
    apply sentinel_humidity_exceeds; [exact Hh|reflexivity|reflexivity]. }
  assert (E : c0 = (tt, state_after (sendBattLevel false v (state_after th)),
                    sent th ++ sent (sendBattLevel false v (state_after th)))).
  { subst c0. rewrite setup_eq. reflexivity. }
  destruct (batt_frame false v (state_after th))
    as (_ & _ & _ & BT & BH & BD & BM & _ & BRT & BRH).
  destruct (batt_first_report v (state_after th)) as (BR & BL).
  assert (LB : lastBattery (state_after th) = -100).
  { subst th. rewrite sendTempHumidityMeasurements_eq, T. reflexivity. }
  assert (TB : battery_reports (sent th) = []).
  { subst th. rewrite th_battery_reports.
    change (sendBattery s0 >? 60) with false.
    rewrite andb_false_r. reflexivity. }
  assert (S0 : state_after c0 = state_after (sendBattLevel false v (state_after th)))
    by (rewrite E; reflexivity).
  assert (O0 : sent c0 = sent th ++ sent (sendBattLevel false v (state_after th)))
    by (rewrite E; reflexivity).
  subst c1. rewrite loop_door_reports, loop_motion_reports.
  rewrite S0, O0, BT, BH, BL, BD, BM.
  assert (AT : forall a b, temperature_reports (a ++ b)
                = temperature_reports a ++ temperature_reports b)
    by (intros; apply flat_map_app).
  assert (AH : forall a b, humidity_reports (a ++ b)
                = humidity_reports a ++ humidity_reports b)
    by (intros; apply flat_map_app).
  assert (AB : forall a b, battery_reports (a ++ b)
                = battery_reports a ++ battery_reports b)
    by (intros; apply flat_map_app).
  rewrite AT, AH, AB, BRT, BRH, BR, TB, LB, !app_nil_r. cbn [app].
  subst th.
  rewrite th_temperature_reports, th_humidity_reports, th_lastTemperature,
    th_lastHumidity, th_old_door_val, th_old_motion_val, T.
  cbn [isMetric old_door_val old_motion_val s0 before_first_measurement
       set_raHum set_isMetric init].
  repeat split; destruct (door_pin r), (motion_pin r); reflexivity.
Qed.

Lemma first_readings_after_reset_witness :
  0 <= humidityPercent mild < 65536
  /\ temperature_reports (sent (setup true mild 3000 init))
     = [reading_temperature true mild]
  /\ door_reports (sent (loop calm (state_after (setup true mild 3000 init)))) = [].
Proof.
  assert (H : 0 <= humidityPercent mild < 65536) by (cbn; lia).
  split; [exact H|].
  pose proof (first_readings_after_reset true mild 3000 calm H) as T.
  cbv zeta in T.
  destruct T as (_ & Ht & _ & _ & _ & _ & _ & Hd & _).
  split; [exact Ht|exact Hd].
Defined.
End FirstReadings.

(** * The start-up self test (C9) *)
Section SelfTestFacts.
Import SelfTest.

Lemma failed_loop_is_silent (n : nat) : iterations SelftestFailed n = [].
Proof. induction n as [|n IH]; [reflexivity|exact IH]. Qed.

Lemma ok_loop_blinks (n : nat) :
  led_writes (iterations BlinkOk n) = List.concat (repeat [HIGH; LOW] n).
Proof.
  induction n as [|n IH]; [reflexivity|].
  cbn [iterations loop_body app led_writes repeat List.concat]. rewrite IH. reflexivity.
Qed.

(** After three passed tests the LED is switched on and off in every
    iteration. *)
Lemma passed_selftest_blinks (p : peripherals) (n : nat) :
  tests p = 3 ->
  led_writes (testMode p n) = HIGH :: List.concat (repeat [HIGH; LOW] n).
Proof.
  intros H. unfold testMode, verdict. rewrite H. cbn [Z.eqb Pos.eqb led_writes].
  rewrite ok_loop_blinks. reflexivity.
Qed.

(** C9: evaluated on the code.  When fewer than three tests pass,
    [setup()] ends in the terminal loop of [testMode] and never goes
    online; but the body of that loop is empty: however long it runs, the
    only write to the LED pin is the HIGH at the start of [testMode], so
    the LED is lit steadily and does not blink.  The loop after three
    passed tests does blink. *)
Theorem failed_selftest_does_not_blink :
  forall (p : peripherals) (n : nat),
    tests p <> 3 ->
    setup_boot false p = Halted SelftestFailed
    /\ testMode p n = [LedWrite HIGH]
    /\ led_writes (testMode p n) = [HIGH].
Proof.
  intros p n H. unfold setup_boot, testMode, verdict.
  destruct (tests p =? 3) eqn:E; [apply Z.eqb_eq in E; contradiction|].
  cbn [negb]. rewrite failed_loop_is_silent. repeat split.
Qed.

Lemma failed_selftest_does_not_blink_witness :
  tests (mk_peripherals false true 0 0) <> 3
  /\ led_writes (testMode (mk_peripherals false true 0 0) 1000) = [HIGH]
  /\ led_writes (testMode (mk_peripherals true true 0 0) 2)
     = [HIGH; HIGH; LOW; HIGH; LOW].
Proof.
  assert (H : tests (mk_peripherals false true 0 0) <> 3)
    by (vm_compute; discriminate).
  split; [exact H|]. split.
  - apply (failed_selftest_does_not_blink (mk_peripherals false true 0 0) 1000 H).
  - reflexivity.
Defined.
End SelfTestFacts.


(** * No NaN (C6): the signs of rounded results *)
Section RoundingSigns.
Variables prec emax : Z.







End RoundingSigns.

(** * No NaN: the operations of the sketch on numbers *)
Section NumbersStayNumbers.
Import Avr Sketch Sensebender Examples.

















End NumbersStayNumbers.

(** * No NaN: every state in which the sketch measures is numeric *)
Section NumericStates.
Import Avr Sketch Sensebender Examples.









End NumericStates.

(** * Further properties of the Sensebender sketch: the counters over runs *)
Section CounterInvariant.
Import Avr Sketch Sensebender Examples.

Lemma loop_counters_in_range (r : readings) (s : state) :
  counters_in_range s -> counters_in_range (state_after (loop r s)).
Proof.
  unfold counters_in_range, FORCE_TRANSMIT_INTERVAL.
  intros [Hm Hb].
  rewrite loop_measureCount, loop_sendBattery.
  assert (Wm : wrap_int (measureCount s + 1) = measureCount s + 1)
    by (apply wrap_int_small; lia).
  assert (Wb : wrap_int (sendBattery s + 1) = sendBattery s + 1)
    by (apply wrap_int_small; lia).
  rewrite Wm, Wb.
  pose proof (forced_transmits r s) as F.
  unfold forced, FORCE_TRANSMIT_INTERVAL in F. rewrite Wm in F.
  destruct (cycle_transmits r s).
  - cbn [andb]. destruct (sendBattery s + 1 >? 60) eqn:G; [lia|].
    rewrite Z.gtb_ltb in G. apply Z.ltb_ge in G. lia.
  - cbn [andb].
    destruct (measureCount s + 1 >? 30) eqn:G.
    + specialize (F eq_refl). discriminate F.
    + rewrite Z.gtb_ltb in G. apply Z.ltb_ge in G. lia.
Qed.

Lemma run_counters_in_range (rs : list readings) :
  forall s : state, counters_in_range s -> counters_in_range (fst (run rs s)).
Proof.
  induction rs as [|r rs IH]; intros s H; [exact H|].
  rewrite run_cons. cbn [fst]. apply IH, loop_counters_in_range, H.
Qed.

Lemma setup_measureCount (metric : bool) (d : si7021_env) (v : Z) :
  measureCount (state_after (setup metric d v init)) = 0.
Proof.
  rewrite setup_eq. cbv zeta. unfold state_after at 1. cbn [fst snd].
  fold (state_after (sendBattLevel false v
          (state_after (sendTempHumidityMeasurements false d v
                          (before_first_measurement metric init))))).
  destruct (batt_frame false v
             (state_after (sendTempHumidityMeasurements false d v
                             (before_first_measurement metric init))))
    as (-> & _).
  rewrite th_measureCount.
  destruct (transmits _ _ _); reflexivity.
Qed.

Lemma setup_counters_in_range (metric : bool) (d : si7021_env) (v : Z) :
  counters_in_range (state_after (setup metric d v init)).
Proof.
  unfold counters_in_range, FORCE_TRANSMIT_INTERVAL.
  rewrite setup_measureCount, setup_sendBattery. lia.
Qed.

(** X1: in every state reached from [setup()] by any number of wake
    cycles, [measureCount] lies between 0 and 30 and [sendBattery] between
    0 and 90, so neither [int] counter ever overflows. *)
Theorem counters_never_overflow :
  forall (metric : bool) (d : si7021_env) (v : Z) (rs : list readings),
    let s := fst (run rs (state_after (setup metric d v init))) in
    0 <= measureCount s <= 30
    /\ 0 <= sendBattery s <= 90
    /\ wrap_int (measureCount s + 1) = measureCount s + 1
    /\ wrap_int (sendBattery s + 1) = sendBattery s + 1.
Proof.
  intros metric d v rs s.
  pose proof (run_counters_in_range rs _ (setup_counters_in_range metric d v)) as H.
  fold s in H. unfold counters_in_range, FORCE_TRANSMIT_INTERVAL in H.
  repeat split; try lia; apply wrap_int_small; lia.
Qed.

(** X2: temperature and humidity are never older than 31 wake cycles.
    From a state with [measureCount] between 0 and 30, any run of at least
    [31 - measureCount] cycles, hence any run of 31 cycles, sends the pair
    at least once, whatever is measured. *)
Theorem temperature_sent_within_31_cycles :
  forall (rs : list readings) (s : state),
    0 <= measureCount s <= 30 ->
    31 - measureCount s <= Z.of_nat (List.length rs) ->
    flat_map temperature_reports (snd (run rs s)) <> []
    /\ flat_map humidity_reports (snd (run rs s)) <> [].
Proof.
  induction rs as [|r rs IH]; intros s Hm Hl.
  - cbn [List.length Z.of_nat] in Hl. lia.
  - rewrite run_cons. cbn [snd flat_map].
    rewrite loop_temperature_reports, loop_humidity_reports.
    destruct (cycle_transmits r s) eqn:T.
    + split; discriminate.
    + cbn [app].
      assert (Wm : wrap_int (measureCount s + 1) = measureCount s + 1)
        by (apply wrap_int_small; lia).
      pose proof (forced_transmits r s) as F.
      unfold forced, FORCE_TRANSMIT_INTERVAL in F. rewrite Wm, T in F.
      assert (G : (measureCount s + 1 >? 30) = false).
      { destruct (measureCount s + 1 >? 30); [specialize (F eq_refl); discriminate F|reflexivity]. }
      rewrite Z.gtb_ltb in G. apply Z.ltb_ge in G.
      cbn [List.length] in Hl. rewrite Nat2Z.inj_succ in Hl.
      apply IH; rewrite loop_measureCount, T, Wm; lia.
Qed.

Lemma temperature_sent_within_31_cycles_witness :
  0 <= measureCount five_cycles_in <= 30
  /\ 31 - measureCount five_cycles_in <= Z.of_nat (List.length (repeat calm 26))
  /\ flat_map temperature_reports (snd (run (repeat calm 26) five_cycles_in)) <> [].
Proof.
  assert (Hm : 0 <= measureCount five_cycles_in <= 30)
    by (vm_compute; split; discriminate).
  assert (Hl : 31 - measureCount five_cycles_in <= Z.of_nat (List.length (repeat calm 26)))
    by (vm_compute; discriminate).
  split; [exact Hm|]. split; [exact Hl|].
  exact (proj1 (temperature_sent_within_31_cycles (repeat calm 26) five_cycles_in Hm Hl)).
Defined.
End CounterInvariant.

(** * Unchanged readings stay silent; the battery is reported in time *)
Section QuietAndBattery.
Import Avr Sketch Sensebender Examples.

Lemma steady_humidity_all : all_from steady_humidity 0 (Z.to_nat 32768) = true.
Proof. vm_compute. reflexivity. Qed.

Lemma settled_is_silent (d : si7021_env) (s : state) :
  0 <= humidityPercent d < 32768 ->
  settled d s ->
  transmits false d s = false.
Proof.
  intros Hh (HT & HH & HS & rest & HW).
  unfold transmits. rewrite tx_decision_orb.
  rewrite (unchanged_temperature_within_threshold d s HT).
  assert (S : steady_humidity (humidityPercent d) = true).
  { apply (all_from_spec steady_humidity _ 0 steady_humidity_all). cbn. lia. }
  unfold steady_humidity in S. cbv zeta in S.
  apply andb_true_iff in S as [Sn Sg].
  apply negb_true_iff in Sn. apply negb_true_iff in Sg.
  assert (D : diffHum d s =
              abs (fsub (of_Z (humidityPercent d))
                     (RunningAverage.getAverage
                        (RunningAverage.mk AVERAGES
                           [of_Z (humidityPercent d); of_Z (humidityPercent d)])))).
  { unfold diffHum, RunningAverage.addValue. rewrite HH, HS, HW. reflexivity. }
  rewrite D, Sn, Sg. reflexivity.
Qed.

Lemma settled_after_silent_cycle (r : readings) (s : state) :
  settled (data r) s ->
  cycle_transmits r s = false ->
  settled (data r) (state_after (loop r s)).
Proof.
  intros (HT & HH & HS & rest & HW) T. unfold settled.
  rewrite loop_lastTemperature, loop_lastHumidity, loop_isMetric, loop_raHum, T.
  unfold RunningAverage.addValue. rewrite HS, HW. cbn.
  repeat split; try assumption. eexists. reflexivity.
Qed.

Lemma settled_after_transmission (r : readings) (s : state) :
  0 <= humidityPercent (data r) < 32768 ->
  RunningAverage.size (raHum s) = AVERAGES ->
  cycle_transmits r s = true ->
  settled (data r) (state_after (loop r s)).
Proof.
  intros Hh HS T. unfold settled.
  rewrite loop_lastTemperature, loop_lastHumidity, loop_isMetric, loop_raHum, T.
  unfold RunningAverage.addValue. rewrite HS. cbn.
  repeat split.
  - apply wrap_int_small. lia.
  - eexists. reflexivity.
Qed.

Lemma settled_run_is_silent (d : si7021_env) (rs : list readings) :
  forall s : state,
    0 <= humidityPercent d < 32768 ->
    settled d s ->
    Forall (fun r => data r = d) rs ->
    0 <= measureCount s ->
    measureCount s + Z.of_nat (List.length rs) <= 30 ->
    flat_map temperature_reports (snd (run rs s)) = []
    /\ flat_map humidity_reports (snd (run rs s)) = []
    /\ measureCount (fst (run rs s)) = measureCount s + Z.of_nat (List.length rs).
Proof.
  induction rs as [|r rs IH]; intros s Hh St Hd Hm Hl.
  - cbn. repeat split. lia.
  - inversion Hd as [|? ? Hr Hrs]; subst.
    cbn [List.length] in Hl. rewrite Nat2Z.inj_succ in Hl.
    assert (Wm : wrap_int (measureCount s + 1) = measureCount s + 1)
      by (apply wrap_int_small; lia).
    assert (F : forced s = false).
    { unfold forced, FORCE_TRANSMIT_INTERVAL. rewrite Wm, Z.gtb_ltb.
      apply Z.ltb_ge. lia. }
    assert (T : cycle_transmits r s = false).
    { unfold cycle_transmits. rewrite transmits_begin_cycle, F.
      apply settled_is_silent; assumption. }
    rewrite run_cons. cbn [fst snd flat_map].
    rewrite loop_temperature_reports, loop_humidity_reports, T. cbn [app].
    destruct (IH (state_after (loop r s))) as (I1 & I2 & I3);
      try assumption.
    + apply settled_after_silent_cycle; assumption.
    + rewrite loop_measureCount, T, Wm. lia.
    + rewrite loop_measureCount, T, Wm. lia.
    + rewrite I1, I2, I3, loop_measureCount, T, Wm.
      cbn [List.length]. rewrite Nat2Z.inj_succ. repeat split. lia.
Qed.

Lemma thirty_counted_forces (r : readings) (s : state) :
  measureCount s = 30 -> temperature_reports (sent (loop r s)) <> [].
Proof.
  intros H. rewrite loop_temperature_reports, forced_transmits; [discriminate|].
  unfold forced. rewrite H. reflexivity.
Qed.

Lemma setup_settled (metric : bool) (d : si7021_env) (v : Z) :
  0 <= humidityPercent d < 32768 ->
  settled d (state_after (setup metric d v init)).
Proof.
  intros Hh.
  set (s0 := before_first_measurement metric init).
  set (th := sendTempHumidityMeasurements false d v s0).
  assert (T : transmits false d s0 = true).
  { apply exceeding_humidity_transmits.
    apply sentinel_humidity_exceeds; [lia|reflexivity|reflexivity]. }
  assert (E : state_after (setup metric d v init)
              = state_after (sendBattLevel false v (state_after th)))
    by (rewrite setup_eq; reflexivity).
  destruct (batt_frame false v (state_after th))
    as (_ & _ & BI & BT & BH & _ & _ & BR & _).
  unfold settled. rewrite E, BI, BT, BH, BR. subst th.
  rewrite th_lastTemperature, th_lastHumidity, th_isMetric, th_raHum, T.
  repeat split.
  - apply wrap_int_small. lia.
  - eexists. reflexivity.
Qed.

(** X3: after a wake cycle that sent temperature and humidity, up to 30
    further cycles that measure the same values send neither of them
    (the humidity being below 32768, so that it survives the conversion to
    [int]); [measureCount] counts these cycles, and after 30 of them the
    next cycle sends the pair whatever it measures. *)
Theorem unchanged_readings_are_not_resent :
  forall (r : readings) (s : state) (rs : list readings),
    0 <= humidityPercent (data r) < 32768 ->
    RunningAverage.size (raHum s) = AVERAGES ->
    cycle_transmits r s = true ->
    Forall (fun r' => data r' = data r) rs ->
    (List.length rs <= 30)%nat ->
    let s1 := state_after (loop r s) in
    flat_map temperature_reports (snd (run rs s1)) = []
    /\ flat_map humidity_reports (snd (run rs s1)) = []
    /\ measureCount (fst (run rs s1)) = Z.of_nat (List.length rs)
    /\ (List.length rs = 30%nat ->
        forall r' : readings,
          temperature_reports (sent (loop r' (fst (run rs s1)))) <> []).
Proof.
  intros r s rs Hh HS T Hd Hl s1.
  assert (M : measureCount s1 = 0)
    by (subst s1; rewrite loop_measureCount, T; reflexivity).
  destruct (settled_run_is_silent (data r) rs s1) as (I1 & I2 & I3);
    try assumption.
  - apply settled_after_transmission; assumption.
  - lia.
  - lia.
  - rewrite I1, I2, I3, M. repeat split.
    intros L r'. apply thirty_counted_forces. rewrite I3, M, L. reflexivity.
Qed.

Lemma unchanged_readings_are_not_resent_witness :
  0 <= humidityPercent (data warm) < 32768
  /\ RunningAverage.size (raHum after_setup) = AVERAGES
  /\ cycle_transmits warm after_setup = true
  /\ Forall (fun r' => data r' = data warm) (repeat warm 30)
  /\ (List.length (repeat warm 30) <= 30)%nat
  /\ flat_map temperature_reports
       (snd (run (repeat warm 30) (state_after (loop warm after_setup)))) = [].
Proof.
  assert (Hh : 0 <= humidityPercent (data warm) < 32768) by (cbn; lia).
  assert (HS : RunningAverage.size (raHum after_setup) = AVERAGES) by reflexivity.
  assert (T : cycle_transmits warm after_setup = true) by (vm_compute; reflexivity).
  assert (Hd : Forall (fun r' => data r' = data warm) (repeat warm 30))
    by (apply Forall_forall; intros x Hx; apply repeat_spec in Hx; subst; reflexivity).
  assert (Hl : (List.length (repeat warm 30) <= 30)%nat)
    by (rewrite repeat_length; lia).
  repeat (split; [assumption|]).
  exact (proj1 (unchanged_readings_are_not_resent warm after_setup (repeat warm 30)
                  Hh HS T Hd Hl)).
Defined.

(** X4: after [setup()] has sent its measurement, forced transmissions
    come every 31 cycles: as long as the same values are measured
    (humidity below 32768), the first 30 wake cycles send neither
    temperature nor humidity, and when 30 such cycles have passed the next
    one sends both. *)
Theorem unchanged_readings_after_setup :
  forall (metric : bool) (d : si7021_env) (v : Z) (rs : list readings),
    0 <= humidityPercent d < 32768 ->
    Forall (fun r => data r = d) rs ->
    (List.length rs <= 30)%nat ->
    let s1 := state_after (setup metric d v init) in
    flat_map temperature_reports (snd (run rs s1)) = []
    /\ flat_map humidity_reports (snd (run rs s1)) = []
    /\ measureCount (fst (run rs s1)) = Z.of_nat (List.length rs)
    /\ (List.length rs = 30%nat ->
        forall r : readings,
          temperature_reports (sent (loop r (fst (run rs s1)))) <> []).
Proof.
  intros metric d v rs Hh Hd Hl s1.
  assert (M : measureCount s1 = 0) by (apply setup_measureCount).
  destruct (settled_run_is_silent d rs s1) as (I1 & I2 & I3);
    try assumption.
  - apply setup_settled. exact Hh.
  - lia.
  - lia.
  - rewrite I1, I2, I3, M. repeat split.
    intros L r. apply thirty_counted_forces. rewrite I3, M, L. reflexivity.
Qed.

Lemma unchanged_readings_after_setup_witness :
  0 <= humidityPercent mild < 32768
  /\ Forall (fun r => data r = mild) (repeat calm 30)
  /\ (List.length (repeat calm 30) <= 30)%nat
  /\ flat_map temperature_reports
       (snd (run (repeat calm 30) (state_after (setup false mild 2900 init)))) = [].
Proof.
  assert (Hh : 0 <= humidityPercent mild < 32768) by (cbn; lia).
  assert (Hd : Forall (fun r => data r = mild) (repeat calm 30))
    by (apply Forall_forall; intros x Hx; apply repeat_spec in Hx; subst; reflexivity).
  assert (Hl : (List.length (repeat calm 30) <= 30)%nat)
    by (rewrite repeat_length; lia).
  repeat (split; [assumption|]).
  exact (proj1 (unchanged_readings_after_setup false mild 2900 (repeat calm 30)
                  Hh Hd Hl)).
Defined.

Lemma run_reports_are_measured (rs : list readings) :
  forall s : state,
    isMetric (fst (run rs s)) = isMetric s
    /\ Forall (fun t => exists r, In r rs /\ t = reading_temperature (isMetric s) (data r))
         (flat_map temperature_reports (snd (run rs s)))
    /\ Forall (fun h => exists r, In r rs /\ h = wrap_int (humidityPercent (data r)))
         (flat_map humidity_reports (snd (run rs s))).
Proof.
  induction rs as [|r rs IH]; intros s.
  - repeat split; constructor.
  - rewrite run_cons. cbn [fst snd flat_map].
    destruct (IH (state_after (loop r s))) as (I1 & I2 & I3).
    rewrite loop_isMetric in I1, I2.
    rewrite loop_temperature_reports, loop_humidity_reports.
    split; [exact I1|]. split; apply Forall_app; split.
    + destruct (cycle_transmits r s); constructor; [|constructor].
      exists r. split; [left; reflexivity|reflexivity].
    + eapply Forall_impl; [|exact I2].
      intros t (r' & Hin & Ht). exists r'. split; [right; exact Hin|exact Ht].
    + destruct (cycle_transmits r s); constructor; [|constructor].
      exists r. split; [left; reflexivity|reflexivity].
    + eapply Forall_impl; [|exact I3].
      intros h (r' & Hin & Hh). exists r'. split; [right; exact Hin|exact Hh].
Qed.

(** X5: the sketch only sends what it measured.  Over any run after
    [setup()], [isMetric] keeps the configured value, every temperature
    sent is the temperature measured in some cycle of the run, in the
    configured unit, and every humidity sent is a raw sample of the run,
    never an average. *)
Theorem reports_are_measured_values :
  forall (metric : bool) (d : si7021_env) (v : Z) (rs : list readings),
    let s1 := state_after (setup metric d v init) in
    isMetric (fst (run rs s1)) = metric
    /\ Forall (fun t => exists r, In r rs /\ t = reading_temperature metric (data r))
         (flat_map temperature_reports (snd (run rs s1)))
    /\ Forall (fun h => exists r, In r rs /\ h = wrap_int (humidityPercent (data r)))
         (flat_map humidity_reports (snd (run rs s1))).
Proof.
  intros metric d v rs s1.
  assert (E : isMetric s1 = metric).
  { subst s1. rewrite setup_eq. cbv zeta. unfold state_after at 1. cbn [fst snd].
    fold (state_after (sendBattLevel false v
            (state_after (sendTempHumidityMeasurements false d v
                            (before_first_measurement metric init))))).
    destruct (batt_frame false v
               (state_after (sendTempHumidityMeasurements false d v
                               (before_first_measurement metric init))))
      as (_ & _ & -> & _).
    rewrite th_isMetric. reflexivity. }
  destruct (run_reports_are_measured rs s1) as (I1 & I2 & I3).
  rewrite E in I1, I2. repeat split; assumption.
Qed.

Lemma cycles_to_battery_positive (s : state) :
  counters_in_range s -> 1 <= cycles_to_battery s <= 91.
Proof.
  unfold counters_in_range, cycles_to_battery, FORCE_TRANSMIT_INTERVAL.
  intros [Hm Hb]. destruct (sendBattery s <? 60) eqn:E.
  - apply Z.ltb_lt in E. lia.
  - apply Z.ltb_ge in E. lia.
Qed.

Lemma battery_within_bound (rs : list readings) :
  forall s : state,
    counters_in_range s ->
    Forall (fun r => vcc r <> -1) rs ->
    cycles_to_battery s <= Z.of_nat (List.length rs) ->
    flat_map battery_reports (snd (run rs s)) <> [].
Proof.
  induction rs as [|r rs IH]; intros s Inv Hv Hl.
  - pose proof (cycles_to_battery_positive s Inv). cbn in Hl. lia.
  - inversion Hv as [|? ? Hr Hrs]; subst.
    cbn [List.length] in Hl. rewrite Nat2Z.inj_succ in Hl.
    pose proof (loop_counters_in_range r s Inv) as Inv'.
    rewrite run_cons. cbn [snd flat_map]. rewrite loop_battery_reports.
    assert (V : negb (vcc r =? -1) = true)
      by (apply negb_true_iff, Z.eqb_neq; exact Hr).
    rewrite V, andb_true_r.
    destruct (cycle_transmits r s && (wrap_int (sendBattery s + 1) >? 60)) eqn:B.
    + discriminate.
    + cbn [app]. apply IH; [exact Inv'|exact Hrs|].
      destruct Inv as [Hm Hb]. unfold FORCE_TRANSMIT_INTERVAL in Hm.
      assert (Wm : wrap_int (measureCount s + 1) = measureCount s + 1)
        by (apply wrap_int_small; lia).
      assert (Wb : wrap_int (sendBattery s + 1) = sendBattery s + 1)
        by (apply wrap_int_small; lia).
      unfold cycles_to_battery in *.
      rewrite loop_sendBattery, loop_measureCount, B, Wm, Wb.
      rewrite Wb in B.
      destruct (sendBattery s <? 60) eqn:E1;
        [apply Z.ltb_lt in E1|apply Z.ltb_ge in E1];
      destruct (sendBattery s + 1 <? 60) eqn:E2;
        [apply Z.ltb_lt in E2|apply Z.ltb_ge in E2| |apply Z.ltb_ge in E2];
      try lia.
      * destruct (cycle_transmits r s); lia.
      * destruct (cycle_transmits r s); cbn [andb] in B.
        -- rewrite Z.gtb_ltb in B. apply Z.ltb_ge in B. lia.
        -- lia.
Qed.

(** X6: the battery level is reported at least once in any 91 consecutive
    wake cycles, provided the supply never reads -1: from a state whose
    counters are in their operating range (as after [setup()]), every run
    of 91 cycles or more contains a battery report. *)
Theorem battery_reported_within_91_cycles :
  forall (rs : list readings) (s : state),
    counters_in_range s ->
    Forall (fun r => vcc r <> -1) rs ->
    (91 <= List.length rs)%nat ->
    flat_map battery_reports (snd (run rs s)) <> [].
Proof.
  intros rs s Inv Hv Hl.
  apply battery_within_bound; try assumption.
  pose proof (cycles_to_battery_positive s Inv). lia.
Qed.

Lemma battery_reported_within_91_cycles_witness :
  counters_in_range after_setup
  /\ Forall (fun r => vcc r <> -1) (repeat calm 91)
  /\ (91 <= List.length (repeat calm 91))%nat
  /\ flat_map battery_reports (snd (run (repeat calm 91) after_setup)) <> [].
Proof.
  assert (Inv : counters_in_range after_setup)
    by (apply setup_counters_in_range).
  assert (Hv : Forall (fun r => vcc r <> -1) (repeat calm 91))
    by (apply Forall_forall; intros x Hx; apply repeat_spec in Hx; subst;
        cbn; discriminate).
  assert (Hl : (91 <= List.length (repeat calm 91))%nat)
    by (rewrite repeat_length; lia).
  repeat (split; [assumption|]).
  exact (battery_reported_within_91_cycles (repeat calm 91) after_setup Inv Hv Hl).
Defined.
End QuietAndBattery.

(** * The supply voltage: [readVcc] and [sendBattLevel] *)
Section SupplyVoltage.
Import Avr Sketch Sensebender Examples.

Lemma readVcc_is_quotient_all :
  all_from readVcc_is_quotient 0 (Z.to_nat 65536) = true.
Proof. vm_compute. reflexivity. Qed.

Lemma battery_level_is_quotient_all :
  all_from battery_level_is_quotient 0 (Z.to_nat 5484) = true.
Proof. vm_compute. reflexivity. Qed.

(** X7: for all contents of the two ADC registers, [readVcc] returns
    1125300 divided by the 16-bit number they hold, read as an [int] and
    rounded towards zero, and has no result (division by zero) exactly when
    both registers are 0.  For a nonzero 10-bit conversion result the
    value is the positive quotient, between 1100 and 1125300. *)
Theorem readVcc_divides_reference :
  forall low high : Z,
    0 <= low < 256 -> 0 <= high < 256 ->
    readVcc low high =
      (if 256 * high + low =? 0 then None
       else Some (Z.quot 1125300 (wrap_int (256 * high + low))))
    /\ (high < 4 -> 256 * high + low <> 0 ->
        readVcc low high = Some (1125300 / (256 * high + low))
        /\ 1100 <= 1125300 / (256 * high + low) <= 1125300).
Proof.
  intros low high Hl Hh.
  set (n := 256 * high + low).
  assert (Hn : 0 <= n < 0 + Z.of_nat (Z.to_nat 65536)) by (subst n; lia).
  pose proof (all_from_spec readVcc_is_quotient _ 0 readVcc_is_quotient_all n Hn) as C.
  unfold readVcc_is_quotient in C.
  assert (Em : n mod 256 = low).
  { subst n. rewrite Z.add_comm, Z.mul_comm, Z.mod_add by lia.
    apply Z.mod_small. lia. }
  assert (Ed : n / 256 = high).
  { subst n. rewrite Z.add_comm, Z.mul_comm, Z.div_add by lia.
    rewrite Z.div_small by lia. lia. }
  rewrite Em, Ed in C.
  assert (E : readVcc low high =
              if n =? 0 then None else Some (Z.quot 1125300 (wrap_int n))).
  { destruct (readVcc low high) as [v|].
    - apply andb_true_iff in C as [C1 C2].
      apply negb_true_iff in C1. apply Z.eqb_eq in C2.
      rewrite C1, C2. reflexivity.
    - rewrite C. reflexivity. }
  split; [exact E|].
  intros H4 Hnz.
  assert (W : wrap_int n = n) by (apply wrap_int_small; subst n; lia).
  assert (Q : Z.quot 1125300 n = 1125300 / n)
    by (apply Z.quot_div_nonneg; subst n; lia).
  rewrite E, W, Q.
  destruct (n =? 0) eqn:Z0; [apply Z.eqb_eq in Z0; contradiction|].
  split; [reflexivity|].
  split.
  - apply Z.div_le_lower_bound; subst n; lia.
  - apply Z.div_le_upper_bound; subst n; lia.
Qed.

Lemma readVcc_divides_reference_witness :
  0 <= 119 < 256 /\ 0 <= 1 < 256
  /\ readVcc 119 1 = Some 3000.
Proof.
  assert (Hl : 0 <= 119 < 256) by lia.
  assert (Hh : 0 <= 1 < 256) by lia.
  split; [exact Hl|]. split; [exact Hh|].
  exact (proj1 (readVcc_divides_reference 119 1 Hl Hh)).
Defined.

(** X8: the battery level handed to [sendBatteryLevel] is the quotient of
    [vcc - 1900] by 14, rounded towards zero and reduced to a byte, with no
    clamping: between 0 and 100 for a supply of 1900 to 3313 mV, above 100
    for a higher supply up to 5483 mV, and wrapped to 121 or more when the
    supply is 1886 mV or less. *)
Theorem battery_level_is_unclamped_quotient :
  forall vcc : Z,
    0 <= vcc <= 5483 ->
    battery_level vcc = (Z.quot (vcc - 1900) 14) mod 256
    /\ (1900 <= vcc <= 3313 ->
        battery_level vcc = (vcc - 1900) / 14 /\ 0 <= battery_level vcc <= 100)
    /\ (3314 <= vcc -> 101 <= battery_level vcc)
    /\ (vcc <= 1886 -> 121 <= battery_level vcc <= 255).
Proof.
  intros vcc H.
  assert (E : battery_level vcc = (Z.quot (vcc - 1900) 14) mod 256).
  { apply Z.eqb_eq.
    apply (all_from_spec battery_level_is_quotient _ 0 battery_level_is_quotient_all).
    cbn. lia. }
  split; [exact E|]. rewrite E.
  repeat split; intros; Z.quot_rem_to_equations; Z.to_euclidean_division_equations; lia.
Qed.

Lemma battery_level_is_unclamped_quotient_witness :
  0 <= 3000 <= 5483 /\ battery_level 3000 = 78 /\ battery_level 1800 = 249.
Proof.
  assert (H : 0 <= 3000 <= 5483) by lia.
  split; [exact H|]. split.
  - exact (proj1 (battery_level_is_unclamped_quotient 3000 H)).
  - reflexivity.
Defined.

(** X9: [sendBattLevel] always leaves [lastBattery] equal to the voltage
    just read.  Without force it reports exactly when that voltage differs
    from the previous [lastBattery], so a second call with the same voltage
    reports nothing; with force it reports whenever the voltage is not -1,
    and a report consists of the voltage followed by the battery level. *)
Theorem sendBattLevel_reports_changes :
  forall (force : bool) (v : Z) (s : state),
    let b := sendBattLevel force v s in
    lastBattery (state_after b) = v
    /\ sent b =
         (if (if force then v =? -1 else v =? lastBattery s) then []
          else [MsgBatt (fdiv (of_Z v) f1000); BatteryLevel (battery_level v)])
    /\ sent (sendBattLevel false v (state_after b)) = [].
Proof.
  intros force v s b. subst b.
  rewrite !sendBattLevel_eq. cbv zeta.
  destruct force.
  - cbn [lastBattery set_lastBattery].
    destruct (v =? -1) eqn:E.
    + apply Z.eqb_eq in E. subst v. cbn. repeat split.
    + cbn [state_after sent fst snd lastBattery set_lastBattery set_transmission_occured].
      rewrite Z.eqb_refl. repeat split.
  - destruct (v =? lastBattery s) eqn:E.
    + cbn [state_after sent fst snd]. rewrite E.
      apply Z.eqb_eq in E. repeat split. symmetry. exact E.
    + cbn [state_after sent fst snd lastBattery set_lastBattery set_transmission_occured].
      rewrite Z.eqb_refl. repeat split.
Qed.
End SupplyVoltage.

(** * The messages of one wake cycle *)
Section CycleOutput.
Import Avr Sketch Sensebender Examples.

Lemma th_transmission_occured (force : bool) (d : si7021_env) (v : Z) (s : state) :
  transmission_occured (state_after (sendTempHumidityMeasurements force d v s)) =
    if transmits force d s then true else transmission_occured s.
Proof.
  rewrite sendTempHumidityMeasurements_eq.
  destruct (transmits force d s); [|reflexivity].
  destruct (sendBattery s >? 60); [|reflexivity].
  rewrite sendBattLevel_eq.
  cbn -[wrap_int wrap_long wrap_uint8 fdiv of_Z to_Z RunningAverage.addValue
        reading_temperature].
  destruct (v =? -1); reflexivity.
Qed.

Lemma th_sent (force : bool) (d : si7021_env) (v : Z) (s : state) :
  sent (sendTempHumidityMeasurements force d v s) =
    if transmits force d s then
      [MsgTemp (reading_temperature (isMetric s) d);
       MsgHum (wrap_int (humidityPercent d))]
      ++ (if (sendBattery s >? 60) && negb (v =? -1)
          then [MsgBatt (fdiv (of_Z v) f1000); BatteryLevel (battery_level v)]
          else [])
    else [].
Proof.
  rewrite sendTempHumidityMeasurements_eq.
  destruct (transmits force d s); [|reflexivity].
  destruct (sendBattery s >? 60); [|reflexivity].
  rewrite sendBattLevel_eq.
  cbn -[wrap_int wrap_long wrap_uint8 fdiv of_Z to_Z RunningAverage.addValue
        reading_temperature battery_level].
  destruct (v =? -1); reflexivity.
Qed.

(** X10: the messages of a wake cycle come in a fixed order: temperature
    and humidity, then (only together with them, when [sendBattery] has
    passed 60 and the supply does not read -1) battery voltage and battery
    level, then the door change, then the motion change.  A cycle sends at
    most six messages. *)
Theorem cycle_messages_in_order :
  forall (r : readings) (s : state),
    sent (loop r s) =
      (if cycle_transmits r s then
         [MsgTemp (reading_temperature (isMetric s) (data r));
          MsgHum (wrap_int (humidityPercent (data r)))]
         ++ (if (wrap_int (sendBattery s + 1) >? 60) && negb (vcc r =? -1)
             then [MsgBatt (fdiv (of_Z (vcc r)) f1000);
                   BatteryLevel (battery_level (vcc r))]
             else [])
       else [])
      ++ (if Bool.eqb (door_pin r) (old_door_val s) then []
          else [MsgDoor (if door_pin r then 1 else 0)])
      ++ (if Bool.eqb (motion_pin r) (old_motion_val s) then []
          else [MsgMotion (if motion_pin r then 1 else 0)])
    /\ (List.length (sent (loop r s)) <= 6)%nat.
Proof.
  intros r s.
  assert (E : sent (loop r s) =
      (if cycle_transmits r s then
         [MsgTemp (reading_temperature (isMetric s) (data r));
          MsgHum (wrap_int (humidityPercent (data r)))]
         ++ (if (wrap_int (sendBattery s + 1) >? 60) && negb (vcc r =? -1)
             then [MsgBatt (fdiv (of_Z (vcc r)) f1000);
                   BatteryLevel (battery_level (vcc r))]
             else [])
       else [])
      ++ (if Bool.eqb (door_pin r) (old_door_val s) then []
          else [MsgDoor (if door_pin r then 1 else 0)])
      ++ (if Bool.eqb (motion_pin r) (old_motion_val s) then []
          else [MsgMotion (if motion_pin r then 1 else 0)])).
  { rewrite loop_eq. cbv zeta. unfold sent at 1. cbn [snd].
    rewrite th_sent, begin_cycle_isMetric, begin_cycle_sendBattery.
    fold (cycle_transmits r s).
    rewrite th_old_door_val, begin_cycle_old_door_val.
    assert (M : forall (b : bool) (x : state),
               old_motion_val (if b then set_old_door_val (door_pin r) x else x)
               = old_motion_val x) by (intros [] x; reflexivity).
    rewrite M, th_old_motion_val, begin_cycle_old_motion_val.
    destruct (Bool.eqb (door_pin r) (old_door_val s)),
             (Bool.eqb (motion_pin r) (old_motion_val s)); reflexivity. }
  split; [exact E|]. rewrite E.
  destruct (cycle_transmits r s),
           ((wrap_int (sendBattery s + 1) >? 60) && negb (vcc r =? -1)),
           (Bool.eqb (door_pin r) (old_door_val s)),
           (Bool.eqb (motion_pin r) (old_motion_val s)); cbn; lia.
Qed.

Lemma loop_transmission_occured (r : readings) (s : state) :
  transmission_occured (state_after (loop r s)) = cycle_transmits r s.
Proof.
  rewrite loop_eq. cbv zeta. unfold state_after at 1. cbn [fst snd].
  assert (M : forall (b b' : bool) (x : state),
             transmission_occured
               (if b' then set_old_motion_val (motion_pin r)
                             (if b then set_old_door_val (door_pin r) x else x)
                else (if b then set_old_door_val (door_pin r) x else x))
             = transmission_occured x) by (intros [] [] x; reflexivity).
  rewrite M, th_transmission_occured. fold (cycle_transmits r s).
  destruct (cycle_transmits r s); [reflexivity|].
  unfold begin_cycle. destruct (forced s); reflexivity.
Qed.

(** X11: after a wake cycle the flag [transmission_occured] is set exactly
    when temperature and humidity were sent in that cycle; a cycle that
    only reports a door or motion change leaves it clear. *)
Theorem transmission_flag_follows_temperature_only :
  forall (r : readings) (s : state),
    let c := loop r s in
    (transmission_occured (state_after c) = true <-> temperature_reports (sent c) <> [])
    /\ (temperature_reports (sent c) = [] ->
        transmission_occured (state_after c) = false).
Proof.
  intros r s c. subst c.
  rewrite loop_transmission_occured, loop_temperature_reports.
  destruct (cycle_transmits r s); split; try split; intros; try discriminate;
    try reflexivity; try contradiction.
Qed.
End CycleOutput.

(** * Door and motion over runs *)
Section DigitalTraces.
Import Sketch.

Lemma last_nonempty_default {A} (l : list A) (d d' : A) :
  l <> [] -> last l d = last l d'.
Proof.
  induction l as [|a l IH]; intros H; [contradiction|].
  destruct l as [|b l]; [reflexivity|].
  cbn [last] in *. apply IH. discriminate.
Qed.

Lemma last_cons_default {A} (x : A) (l : list A) (d : A) :
  last (x :: l) d = last l x.
Proof.
  destruct l as [|b l]; [reflexivity|].
  change (last (x :: b :: l) d) with (last (b :: l) d).
  apply last_nonempty_default. discriminate.
Qed.

Lemma changes_alternates (l : list bool) :
  forall prev, alternates prev (changes prev l).
Proof.
  induction l as [|x l IH]; intros prev; [exact I|].
  cbn [changes]. destruct (Bool.eqb x prev) eqn:E; [apply IH|].
  cbn [alternates]. split; [|apply IH].
  intros ->. rewrite Bool.eqb_reflx in E. discriminate.
Qed.

Lemma changes_last (l : list bool) :
  forall prev, last (changes prev l) prev = last l prev.
Proof.
  induction l as [|x l IH]; intros prev; [reflexivity|].
  cbn [changes]. rewrite (last_cons_default x l prev).
  destruct (Bool.eqb x prev) eqn:E.
  - apply Bool.eqb_prop in E. subst x. apply IH.
  - rewrite last_cons_default. apply IH.
Qed.

Lemma Sensebender_run_door_reports (rs : list Sensebender.readings) :
  forall s : Sensebender.state,
    flat_map Sensebender.door_reports (snd (Sensebender.run rs s)) =
      map (fun b : bool => if b then 1 else 0)
        (changes (Sensebender.old_door_val s) (map Sensebender.door_pin rs))
    /\ Sensebender.old_door_val (fst (Sensebender.run rs s)) =
        last (map Sensebender.door_pin rs) (Sensebender.old_door_val s).
Proof.
  induction rs as [|r rs IH]; intros s; [split; reflexivity|].
  rewrite run_cons. cbn [fst snd flat_map map changes].
  rewrite last_cons_default.
  destruct (IH (state_after (Sensebender.loop r s))) as [I1 I2].
  rewrite I1, I2, loop_door_reports, loop_old_door_val.
  destruct (Bool.eqb (Sensebender.door_pin r) (Sensebender.old_door_val s)) eqn:E.
  - apply Bool.eqb_prop in E. rewrite <- E. split; reflexivity.
  - split; reflexivity.
Qed.

Lemma Sensebender_run_motion_reports (rs : list Sensebender.readings) :
  forall s : Sensebender.state,
    flat_map Sensebender.motion_reports (snd (Sensebender.run rs s)) =
      map (fun b : bool => if b then 1 else 0)
        (changes (Sensebender.old_motion_val s) (map Sensebender.motion_pin rs))
    /\ Sensebender.old_motion_val (fst (Sensebender.run rs s)) =
        last (map Sensebender.motion_pin rs) (Sensebender.old_motion_val s).
Proof.
  induction rs as [|r rs IH]; intros s; [split; reflexivity|].
  rewrite run_cons. cbn [fst snd flat_map map changes].
  rewrite last_cons_default.
  destruct (IH (state_after (Sensebender.loop r s))) as [I1 I2].
  rewrite I1, I2, loop_motion_reports, loop_old_motion_val.
  destruct (Bool.eqb (Sensebender.motion_pin r) (Sensebender.old_motion_val s)) eqn:E.
  - apply Bool.eqb_prop in E. rewrite <- E. split; reflexivity.
  - split; reflexivity.
Qed.

(** X12: over any run of the Sensebender sketch the door reports are the
    door levels read with repetitions dropped, starting from the stored
    value: no two consecutive reports carry the same value, the last value
    reported (or the stored value, when nothing was reported) is the level
    read last, and so is [old_door_val] at the end.  The same holds for the
    motion channel. *)
Theorem Sensebender_digital_reports_follow_the_pins :
  forall (rs : list Sensebender.readings) (s : Sensebender.state),
    let doors := map Sensebender.door_pin rs in
    let motions := map Sensebender.motion_pin rs in
    let d0 := Sensebender.old_door_val s in
    let m0 := Sensebender.old_motion_val s in
    (flat_map Sensebender.door_reports (snd (Sensebender.run rs s)) =
       map (fun b : bool => if b then 1 else 0) (changes d0 doors)
     /\ alternates d0 (changes d0 doors)
     /\ last (changes d0 doors) d0 = last doors d0
     /\ Sensebender.old_door_val (fst (Sensebender.run rs s)) = last doors d0)
    /\ (flat_map Sensebender.motion_reports (snd (Sensebender.run rs s)) =
         map (fun b : bool => if b then 1 else 0) (changes m0 motions)
       /\ alternates m0 (changes m0 motions)
       /\ last (changes m0 motions) m0 = last motions m0
       /\ Sensebender.old_motion_val (fst (Sensebender.run rs s)) = last motions m0).
Proof.
  intros rs s doors motions d0 m0.
  destruct (Sensebender_run_door_reports rs s) as [D1 D2].
  destruct (Sensebender_run_motion_reports rs s) as [M1 M2].
  repeat split; try assumption;
    try apply changes_alternates; apply changes_last.
Qed.

Lemma MotionSensor_run_cons (door motion : bool) (pins : list (bool * bool))
    (s : MotionSensor.state) :
  MotionSensor.run ((door, motion) :: pins) s =
    (fst (MotionSensor.run pins (MotionSensor.mk_state door motion)),
     sent (MotionSensor.loop door motion s)
     ++ snd (MotionSensor.run pins (MotionSensor.mk_state door motion))).
Proof.
  cbn [MotionSensor.run]. rewrite MotionSensor_loop_eq.
  cbn [state_after sent fst snd].
  destruct (MotionSensor.run pins _). reflexivity.
Qed.

(** X13: over any run of the door/motion sketch that keeps [door_prev]
    and [motion_prev], each channel reports the levels read with
    repetitions dropped, starting from the stored value; consecutive
    reports of a channel differ and the last one, if any, is the level read
    last, which is also the stored value at the end. *)
Theorem MotionSensor_reports_follow_the_pins :
  forall (pins : list (bool * bool)) (s : MotionSensor.state),
    let d0 := MotionSensor.door_prev s in
    let m0 := MotionSensor.motion_prev s in
    MotionSensor.door_reports (snd (MotionSensor.run pins s)) =
      map (fun b : bool => if b then "1" else "0")%string (changes d0 (map fst pins))
    /\ MotionSensor.motion_reports (snd (MotionSensor.run pins s)) =
      map (fun b : bool => if b then "1" else "0")%string (changes m0 (map snd pins))
    /\ alternates d0 (changes d0 (map fst pins))
    /\ alternates m0 (changes m0 (map snd pins))
    /\ MotionSensor.door_prev (fst (MotionSensor.run pins s)) = last (map fst pins) d0
    /\ MotionSensor.motion_prev (fst (MotionSensor.run pins s)) = last (map snd pins) m0
    /\ last (changes d0 (map fst pins)) d0 = last (map fst pins) d0
    /\ last (changes m0 (map snd pins)) m0 = last (map snd pins) m0.
Proof.
  intros pins s d0 m0. subst d0 m0.
  assert (R : forall pins s,
    MotionSensor.door_reports (snd (MotionSensor.run pins s)) =
      map (fun b : bool => if b then "1" else "0")%string
        (changes (MotionSensor.door_prev s) (map fst pins))
    /\ MotionSensor.motion_reports (snd (MotionSensor.run pins s)) =
      map (fun b : bool => if b then "1" else "0")%string
        (changes (MotionSensor.motion_prev s) (map snd pins))
    /\ MotionSensor.door_prev (fst (MotionSensor.run pins s))
        = last (map fst pins) (MotionSensor.door_prev s)
    /\ MotionSensor.motion_prev (fst (MotionSensor.run pins s))
        = last (map snd pins) (MotionSensor.motion_prev s)).
  { clear pins s. induction pins as [|[door motion] pins IH]; intros s;
      [repeat split|].
    rewrite MotionSensor_run_cons. cbn [fst snd map changes].
    rewrite !last_cons_default.
    assert (AD : forall a b, MotionSensor.door_reports (a ++ b)
                  = MotionSensor.door_reports a ++ MotionSensor.door_reports b)
      by (intros; apply flat_map_app).
    assert (AM : forall a b, MotionSensor.motion_reports (a ++ b)
                  = MotionSensor.motion_reports a ++ MotionSensor.motion_reports b)
      by (intros; apply flat_map_app).
    rewrite AD, AM.
    destruct (IH (MotionSensor.mk_state door motion)) as (I1 & I2 & I3 & I4).
    cbn [MotionSensor.door_prev MotionSensor.motion_prev] in I1, I2, I3, I4.
    rewrite I1, I2, I3, I4, MotionSensor_loop_eq. cbn [sent snd].
    destruct (Bool.eqb door (MotionSensor.door_prev s)) eqn:E1;
      [apply Bool.eqb_prop in E1; rewrite <- E1|];
    (destruct (Bool.eqb motion (MotionSensor.motion_prev s)) eqn:E2;
      [apply Bool.eqb_prop in E2; rewrite <- E2|]);
    repeat split. }
  destruct (R pins s) as (R1 & R2 & R3 & R4).
  repeat split; try assumption;
    try apply changes_alternates; apply changes_last.
Qed.

(** X14: as configured, ProMini3v.ino reports both levels in every wake
    cycle, changed or not: over any run the door reports are all door
    levels read, in order, likewise for motion; a run of [n] cycles sends
    [2 n] messages and leaves the state untouched. *)
Theorem ProMini3v_reports_every_reading :
  forall (pins : list (bool * bool)) (s : ProMini3v.state),
    ProMini3v.door_reports (snd (ProMini3v.run pins s)) =
      map (fun b : bool => if b then "1" else "0")%string (map fst pins)
    /\ ProMini3v.motion_reports (snd (ProMini3v.run pins s)) =
      map (fun b : bool => if b then "1" else "0")%string (map snd pins)
    /\ List.length (snd (ProMini3v.run pins s)) = (2 * List.length pins)%nat
    /\ fst (ProMini3v.run pins s) = s.
Proof.
  induction pins as [|[door motion] pins IH]; intros s; [repeat split|].
  cbn [ProMini3v.run]. rewrite ProMini3v_loop_eq.
  cbn [state_after sent fst snd].
  destruct (IH s) as (I1 & I2 & I3 & I4).
  destruct (ProMini3v.run pins s) as [s' out]. cbn [fst snd] in *.
  cbn [app ProMini3v.door_reports ProMini3v.motion_reports flat_map map List.length].
  fold (ProMini3v.door_reports out). fold (ProMini3v.motion_reports out).
  rewrite I1, I2, I3. repeat split; [lia|exact I4].
Qed.
End DigitalTraces.

(** * The self test: when it passes *)
Section SelfTestVerdict.
Import SelfTest.

End SelfTestVerdict.
